(** * Verification of the execution-plan analyzer

    Shallow embedding of
    [skills/advanced-sql-skill/scripts/execution_plan_analyzer.py]:
    the parsed XML tree, the cost model, the operator classifier, the
    missing-index extractor, the plan-level warning collector and the
    command-line driver, followed by the properties proved about them.

    Conventions of the embedding:
    - a Python [str] is a [string]; on ASCII text the two agree character
      for character ([len], slicing, [strip], [split], [upper]);
    - a Python [float] is an IEEE-754 binary64 value: [spec_float] with
      precision 53 and maximal exponent 1024, every operation rounded to
      nearest, ties to even;
    - a Python [int] is a [Z];
    - the attribute dictionary of an XML element is a [gmap string string];
    - a method that mutates the instance is a function from the instance
      to a result and the new instance; an exception leaves the instance
      as it was when it was raised;
    - [print_report] is not rendered: the driver records that the report
      was printed, and for which instance. *)

From Stdlib Require Import ZArith String Ascii List Bool Lia.
From Stdlib Require Import Floats.SpecFloat.
From Stdlib Require Import Numbers.DecimalString.
From stdpp Require Import gmap strings.

Import ListNotations.
Local Open Scope string_scope.
Local Open Scope list_scope.
Local Open Scope Z_scope.

(** ** Python string operations used by the analyzer *)

Module PyStr.

(** [c in chars] for a character [c]. *)
Fixpoint char_in (c : ascii) (chars : string) : bool :=
  match chars with
  | EmptyString => false
  | String d chars' => Ascii.eqb c d || char_in c chars'
  end.

(** [s.lstrip(chars)] *)
Fixpoint lstrip (chars : string) (s : string) : string :=
  match s with
  | EmptyString => EmptyString
  | String c s' => if char_in c chars then lstrip chars s' else s
  end.

(** [s.rstrip(chars)] *)
Fixpoint rstrip (chars : string) (s : string) : string :=
  match s with
  | EmptyString => EmptyString
  | String c s' =>
      match rstrip chars s' with
      | EmptyString => if char_in c chars then EmptyString else String c EmptyString
      | r => String c r
      end
  end.

(** [s.strip(chars)]: drops leading and trailing characters that belong
    to the set [chars]; characters in the middle are kept. *)
Definition strip (chars : string) (s : string) : string :=
  rstrip chars (lstrip chars s).

(** [s.split(sep)] for a one-character separator. *)
Fixpoint split (sep : ascii) (s : string) : list string :=
  match s with
  | EmptyString => [EmptyString]
  | String c s' =>
      if Ascii.eqb c sep then EmptyString :: split sep s'
      else match split sep s' with
           | [] => [String c EmptyString]
           | p :: ps => String c p :: ps
           end
  end.

(** [s.replace(c, '')] for a one-character [c]. *)
Fixpoint remove_char (x : ascii) (s : string) : string :=
  match s with
  | EmptyString => EmptyString
  | String c s' => if Ascii.eqb c x then remove_char x s' else String c (remove_char x s')
  end.

(** [sep.join(parts)] *)
Definition join (sep : string) (parts : list string) : string :=
  String.concat sep parts.

(** [s[:n]] *)
Fixpoint take (n : nat) (s : string) : string :=
  match n, s with
  | O, _ => EmptyString
  | S _, EmptyString => EmptyString
  | S n', String c s' => String c (take n' s')
  end.

Definition upper_char (c : ascii) : ascii :=
  let n := nat_of_ascii c in
  if ((97 <=? n)%nat && (n <=? 122)%nat)%bool then ascii_of_nat (n - 32) else c.

Definition lower_char (c : ascii) : ascii :=
  let n := nat_of_ascii c in
  if ((65 <=? n)%nat && (n <=? 90)%nat)%bool then ascii_of_nat (n + 32) else c.

Fixpoint map_chars (f : ascii -> ascii) (s : string) : string :=
  match s with
  | EmptyString => EmptyString
  | String c s' => String (f c) (map_chars f s')
  end.

(** [s.upper()] and [s.lower()] *)
Definition upper : string -> string := map_chars upper_char.
Definition lower : string -> string := map_chars lower_char.

(** [s.startswith(p)] *)
Fixpoint startswith (p s : string) : bool :=
  match p with
  | EmptyString => true
  | String a p' =>
      match s with
      | EmptyString => false
      | String b s' => Ascii.eqb a b && startswith p' s'
      end
  end.

(** [sub in s] *)
Fixpoint contains (sub s : string) : bool :=
  match s with
  | EmptyString => startswith sub EmptyString
  | String _ s' => startswith sub s || contains sub s'
  end.

(** Truth value of a string: non-empty. *)
Definition truthy (s : string) : bool :=
  match s with EmptyString => false | String _ _ => true end.

Fixpoint rev_acc (s acc : string) : string :=
  match s with
  | EmptyString => acc
  | String c s' => rev_acc s' (String c acc)
  end.

Definition rev (s : string) : string := rev_acc s EmptyString.

Fixpoint repeat_char (c : ascii) (n : nat) : string :=
  match n with O => EmptyString | S n' => String c (repeat_char c n') end.

End PyStr.

(** ** Exceptions *)

(** The built-in exceptions the analysis can raise. *)
Inductive PyExc : Type :=
| ValueError
| OverflowError
| ZeroDivisionError.

(** Outcome of an expression that may raise. *)
Inductive Result (A : Type) : Type :=
| Ok (a : A)
| Raise (e : PyExc).

Arguments Ok {A} a.
Arguments Raise {A} e.

Definition rbind {A B : Type} (r : Result A) (k : A -> Result B) : Result B :=
  match r with
  | Ok a => k a
  | Raise e => Raise e
  end.

Definition is_ok {A : Type} (r : Result A) : bool :=
  match r with Ok _ => true | Raise _ => false end.

(** ** Python numbers: [float] as binary64, [int] as [Z] *)

Module PyNum.

Definition prec : Z := 53.
Definition emax : Z := 1024.

Definition fmul : spec_float -> spec_float -> spec_float := SFmul prec emax.
Definition fdiv : spec_float -> spec_float -> spec_float := SFdiv prec emax.
Definition flt : spec_float -> spec_float -> bool := SFltb.
Definition fle : spec_float -> spec_float -> bool := SFleb.

(** The float nearest to an integer (ties to even). *)
Definition of_Z (n : Z) : spec_float := binary_normalize prec emax n 0 false.

Definition f0 : spec_float := S754_zero false.
Definition f10 : spec_float := Eval vm_compute in of_Z 10.
Definition f20 : spec_float := Eval vm_compute in of_Z 20.
Definition f25 : spec_float := Eval vm_compute in of_Z 25.
Definition f100 : spec_float := Eval vm_compute in of_Z 100.
(** The literal [0.1]. *)
Definition f0_1 : spec_float := Eval vm_compute in fdiv (of_Z 1) (of_Z 10).

Definition is_zero (x : spec_float) : bool :=
  match x with S754_zero _ => true | _ => false end.

(** [x / y] on floats: a zero divisor raises. *)
Definition float_truediv (x y : spec_float) : Result spec_float :=
  if is_zero y then Raise ZeroDivisionError else Ok (fdiv x y).

(** *** [float(s)] for a string *)

Definition is_digit (c : ascii) : bool :=
  let n := nat_of_ascii c in ((48 <=? n)%nat && (n <=? 57)%nat)%bool.

Definition digit_val (c : ascii) : Z := Z.of_nat (nat_of_ascii c) - 48.

Definition is_space (c : ascii) : bool :=
  let n := nat_of_ascii c in
  (((9 <=? n)%nat && (n <=? 13)%nat) || ((28 <=? n)%nat && (n <=? 32)%nat))%bool.

Fixpoint lstrip_space (s : string) : string :=
  match s with
  | EmptyString => EmptyString
  | String c s' => if is_space c then lstrip_space s' else s
  end.

Fixpoint rstrip_space (s : string) : string :=
  match s with
  | EmptyString => EmptyString
  | String c s' =>
      match rstrip_space s' with
      | EmptyString => if is_space c then EmptyString else String c EmptyString
      | r => String c r
      end
  end.

Definition underscore : ascii := "_"%char.

(** Digit-group underscores: each must stand between two digits; they are
    then dropped.  [prev] is the character before [s]. *)
Fixpoint drop_underscores (prev : ascii) (s : string) : option string :=
  match s with
  | EmptyString => if Ascii.eqb prev underscore then None else Some EmptyString
  | String c s' =>
      if Ascii.eqb c underscore then
        if is_digit prev then drop_underscores c s' else None
      else if (Ascii.eqb prev underscore && negb (is_digit c))%bool then None
      else option_map (String c) (drop_underscores c s')
  end.

(** Reads a maximal run of digits, accumulating its value onto [acc] and
    counting the digits read. *)
Fixpoint read_digits (s : string) (acc : Z) (n : nat) : Z * nat * string :=
  match s with
  | EmptyString => (acc, n, s)
  | String c s' =>
      if is_digit c then read_digits s' (10 * acc + digit_val c) (S n)
      else (acc, n, s)
  end.

Definition read_sign (s : string) : bool * string :=
  match s with
  | String "-" s' => (true, s')
  | String "+" s' => (false, s')
  | _ => (false, s)
  end.

(** The exponent part: empty, or [e]/[E], an optional sign and at least
    one digit, up to the end of the string. *)
Definition read_exponent (s : string) : option Z :=
  match s with
  | EmptyString => Some 0
  | String c s' =>
      if (Ascii.eqb c "e" || Ascii.eqb c "E")%bool then
        let '(neg, s'') := read_sign s' in
        match read_digits s'' 0 0 with
        | (_, O, _) => None
        | (v, S _, EmptyString) => Some (if neg then - v else v)
        | (_, S _, String _ _) => None
        end
      else None
  end.

(** The binary64 value nearest to [(-1)^neg * d * 10^e]. *)
Definition decimal_to_float (neg : bool) (d : Z) (e : Z) : spec_float :=
  match d with
  | Zpos p =>
      if 0 <=? e then
        binary_normalize prec emax (if neg then - (d * 10 ^ e) else d * 10 ^ e) 0 neg
      else
        fdiv (S754_finite neg p 0) (S754_finite false (Z.to_pos (10 ^ (- e))) 0)
  | _ => S754_zero neg
  end.

Definition parse_decimal (neg : bool) (s : string) : option spec_float :=
  let '(ip, ni, rest1) := read_digits s 0 0 in
  let '(m, nf, rest2) :=
    match rest1 with
    | String "." r => read_digits r ip 0
    | _ => (ip, O, rest1)
    end in
  match (ni + nf)%nat with
  | O => None
  | S _ =>
      match read_exponent rest2 with
      | Some ex => Some (decimal_to_float neg m (ex - Z.of_nat nf))
      | None => None
      end
  end.

Definition parse_number (s : string) : option spec_float :=
  let '(neg, body) := read_sign s in
  let low := PyStr.lower body in
  if (String.eqb low "inf" || String.eqb low "infinity")%bool then Some (S754_infinity neg)
  else if String.eqb low "nan" then Some S754_nan
  else parse_decimal neg body.

Definition py_float (s : string) : Result spec_float :=
  match drop_underscores "000"%char (rstrip_space (lstrip_space s)) with
  | None => Raise ValueError
  | Some s' =>
      match parse_number s' with
      | Some x => Ok x
      | None => Raise ValueError
      end
  end.

(** *** [int(x)] for a float: truncation toward zero *)

Definition py_int (x : spec_float) : Result Z :=
  match x with
  | S754_zero _ => Ok 0
  | S754_infinity _ => Raise OverflowError
  | S754_nan => Raise ValueError
  | S754_finite s m e =>
      let a := if 0 <=? e then Zpos m * 2 ^ e else Zpos m / 2 ^ (- e) in
      Ok (if s then - a else a)
  end.

(** *** [a / b] for two ints: the float nearest to the quotient *)

Definition int_truediv (a b : Z) : Result spec_float :=
  if b =? 0 then Raise ZeroDivisionError
  else if a =? 0 then Ok (S754_zero (b <? 0))
  else
    match fdiv (S754_finite (a <? 0) (Z.to_pos (Z.abs a)) 0)
               (S754_finite (b <? 0) (Z.to_pos (Z.abs b)) 0) with
    | S754_infinity _ => Raise OverflowError
    | q => Ok q
    end.

(** *** Formatting *)

(** [str(n)] for a non-negative int. *)
Definition digits_of (n : Z) : string :=
  NilZero.string_of_uint (N.to_uint (Z.to_N n)).

(** Inserts a comma after every third character of a reversed digit
    string; [k] counts the digits since the last comma. *)
Fixpoint group3 (s : string) (k : nat) : string :=
  match s with
  | EmptyString => EmptyString
  | String c s' =>
      match k with
      | 3%nat => String "," (String c (group3 s' 1))
      | _ => String c (group3 s' (S k))
      end
  end.

(** [f"{n:,}"] *)
Definition format_comma (n : Z) : string :=
  (if n <? 0 then "-" else "") +:+ PyStr.rev (group3 (PyStr.rev (digits_of (Z.abs n))) 0).

(** [num / den] rounded to the nearest integer, ties to even
    ([0 <= num], [0 < den]). *)
Definition div_half_even (num den : Z) : Z :=
  let q := num / den in
  let r := num mod den in
  match 2 * r ?= den with
  | Lt => q
  | Gt => q + 1
  | Eq => if Z.even q then q else q + 1
  end.

(** The digits of [n] with a point before the last [p] of them. *)
Definition fixed_point (p : nat) (n : Z) : string :=
  let ds := digits_of n in
  let padded := PyStr.repeat_char "0" (S p - String.length ds) +:+ ds in
  let k := (String.length padded - p)%nat in
  match p with
  | O => padded
  | S _ => PyStr.take k padded +:+ "." +:+ String.substring k p padded
  end.

(** [f"{x:.pf}"] *)
Definition format_f (p : nat) (x : spec_float) : string :=
  match x with
  | S754_nan => "nan"
  | S754_infinity s => if s then "-inf" else "inf"
  | S754_zero s => (if s then "-" else "") +:+ fixed_point p 0
  | S754_finite s m e =>
      let scaled := Zpos m * 10 ^ Z.of_nat p in
      let n := if 0 <=? e then scaled * 2 ^ e else div_half_even scaled (2 ^ (- e)) in
      (if s then "-" else "") +:+ fixed_point p n
  end.

End PyNum.

(** ** The parsed document: [xml.etree.ElementTree.Element] *)

#[warnings="-register-all"] Inductive Element : Type :=
| Elem (tag : string) (attrib : gmap string string) (children : list Element).

Module ET.

Definition tag (e : Element) : string :=
  match e with Elem t _ _ => t end.

Definition attrib (e : Element) : gmap string string :=
  match e with Elem _ a _ => a end.

Definition children (e : Element) : list Element :=
  match e with Elem _ _ cs => cs end.

(** [NAMESPACES['p']], in the braces ElementTree puts around it in a tag. *)
Definition NS : string :=
  "{http://schemas.microsoft.com/sqlserver/2004/07/showplan}".

(** The tag that the path step [p:local] selects. *)
Definition qname (local : string) : string := NS +:+ local.

(** [e.get(key)] *)
Definition get (e : Element) (key : string) : option string :=
  attrib e !! key.

(** [e.get(key, dflt)] *)
Definition get_default (e : Element) (key dflt : string) : string :=
  match attrib e !! key with
  | Some v => v
  | None => dflt
  end.

(** [e.iter()]: the element and everything below it, in document order. *)
Fixpoint iter (e : Element) : list Element :=
  match e with
  | Elem _ _ cs => e :: flat_map iter cs
  end.

(** Everything strictly below [e], in document order. *)
Definition descendants (e : Element) : list Element :=
  flat_map iter (children e).

Definition has_tag (local : string) (e : Element) : bool :=
  String.eqb (tag e) (qname local).

(** [e.findall('.//p:local', NAMESPACES)] *)
Definition findall (e : Element) (local : string) : list Element :=
  List.filter (has_tag local) (descendants e).

(** [e.findall('.//p:outer/p:inner', NAMESPACES)] *)
Definition findall_child (e : Element) (outer inner : string) : list Element :=
  flat_map (fun o => List.filter (has_tag inner) (children o)) (findall e outer).

(** [e.find('.//p:local', NAMESPACES)] *)
Definition find (e : Element) (local : string) : option Element :=
  match findall e local with
  | [] => None
  | x :: _ => Some x
  end.

End ET.

(** ** The analyzer's records *)

Record OperatorInfo : Type := mkOperatorInfo {
  name : string;
  cost_percentage : spec_float;
  estimated_rows : Z;
  actual_rows : option Z;
  object_name : string;
  index_name : string;
  op_warnings : list string;      (* field [warnings] of [OperatorInfo] *)
  details : gmap string string
}.

Record MissingIndex : Type := mkMissingIndex {
  impact : spec_float;
  table_name : string;
  equality_columns : list string;
  inequality_columns : list string;
  included_columns : list string;
  create_statement : string
}.

Record ExecutionPlanAnalyzer : Type := mkAnalyzer {
  threshold_percentage : spec_float;
  expensive_operators : list OperatorInfo;
  missing_indexes : list MissingIndex;
  warnings : list string;
  total_cost : spec_float
}.

(** ** Methods that mutate the instance: state and exceptions *)

Definition M (A : Type) : Type :=
  ExecutionPlanAnalyzer -> Result A * ExecutionPlanAnalyzer.

Definition ret {A : Type} (a : A) : M A := fun self => (Ok a, self).

Definition bind {A B : Type} (m : M A) (k : A -> M B) : M B :=
  fun self =>
    match m self with
    | (Ok a, self') => k a self'
    | (Raise e, self') => (Raise e, self')
    end.

(** An expression that reads the instance and may raise. *)
Definition eval {A : Type} (f : ExecutionPlanAnalyzer -> Result A) : M A :=
  fun self => (f self, self).

Declare Scope py_scope.
Delimit Scope py_scope with py.
Notation "'let*' x ':=' m 'in' k" := (bind m (fun x => k))
  (at level 10, x name, m at level 100, k at level 200) : py_scope.
Notation "m '>>' k" := (bind m (fun _ => k))
  (at level 80, right associativity) : py_scope.
Notation "'let?' x ':=' r 'in' k" := (rbind r (fun x => k))
  (at level 10, x name, r at level 100, k at level 200) : py_scope.
Local Open Scope py_scope.

(** [for x in xs: body(x)] *)
Fixpoint for_each {A : Type} (xs : list A) (body : A -> M unit) : M unit :=
  match xs with
  | [] => ret tt
  | x :: xs' => body x >> for_each xs' body
  end.

(** [self.warnings.append(w)] *)
Definition append_warning (w : string) : M unit :=
  fun self =>
    (Ok tt, mkAnalyzer (threshold_percentage self) (expensive_operators self)
                       (missing_indexes self) (warnings self ++ [w]) (total_cost self)).

(** [self.expensive_operators.append(op)] *)
Definition append_expensive (op : OperatorInfo) : M unit :=
  fun self =>
    (Ok tt, mkAnalyzer (threshold_percentage self) (expensive_operators self ++ [op])
                       (missing_indexes self) (warnings self) (total_cost self)).

(** [self.missing_indexes.append(mi)] *)
Definition append_missing (mi : MissingIndex) : M unit :=
  fun self =>
    (Ok tt, mkAnalyzer (threshold_percentage self) (expensive_operators self)
                       (missing_indexes self ++ [mi]) (warnings self) (total_cost self)).

(** [self.total_cost = c] *)
Definition set_total_cost (c : spec_float) : M unit :=
  fun self =>
    (Ok tt, mkAnalyzer (threshold_percentage self) (expensive_operators self)
                       (missing_indexes self) (warnings self) c).

Import PyNum.

(** ** [ExecutionPlanAnalyzer] *)

(** [__init__] *)
Definition __init__ (threshold_percentage : spec_float) : ExecutionPlanAnalyzer :=
  mkAnalyzer threshold_percentage [] [] [] f0.

(** The loop of [_extract_total_cost]: the first statement whose cost
    attribute is present and non-empty sets the total, and the loop stops. *)
Fixpoint _extract_total_cost_loop (stmts : list Element) : M unit :=
  match stmts with
  | [] => ret tt
  | stmt :: rest =>
      match ET.get stmt "StatementSubTreeCost" with
      | Some cost =>
          if PyStr.truthy cost then
            let* c := eval (fun _ => py_float cost) in
            set_total_cost c
          else _extract_total_cost_loop rest
      | None => _extract_total_cost_loop rest
      end
  end.

Definition _extract_total_cost (root : Element) : M unit :=
  _extract_total_cost_loop (ET.findall root "StmtSimple").

(** [float(e.get(key, 0))] *)
Definition float_attr (e : Element) (key : string) : Result spec_float :=
  match ET.get e key with
  | Some v => py_float v
  | None => Ok f0
  end.

(** The loop over the object references of an operator: every iteration
    overwrites both names. *)
Definition object_names (objs : list Element) : string * string :=
  fold_left
    (fun (_ : string * string) obj =>
       (ET.get_default obj "Table" (ET.get_default obj "Index" ""),
        ET.get_default obj "Index" ""))
    objs ("", "").

(** The operator-local warnings. *)
Definition statistics_warnings (relop : Element) : list string :=
  flat_map (fun warning =>
    flat_map (fun column =>
      map (fun col => "No statistics on column: " +:+ ET.get_default col "Column" "")
          (ET.findall column "ColumnReference"))
      (ET.findall warning "ColumnsWithNoStatistics"))
    (ET.findall relop "Warnings").

(** [_extract_operator_info] reads [self.total_cost] and changes nothing.
    Its return type is optional, but every path that returns gives a
    record; the conversions of the numeric attributes may raise. *)
Definition _extract_operator_info (self : ExecutionPlanAnalyzer) (relop : Element)
  : Result (option OperatorInfo) :=
  let physical_op := ET.get_default relop "PhysicalOp" "" in
  let? estimated_cost := float_attr relop "EstimatedTotalSubtreeCost" in
  let? rows := float_attr relop "EstimateRows" in
  let? estimated_rows := py_int rows in
  let? cost_percentage :=
    (if flt f0 (total_cost self) then
       let? q := float_truediv estimated_cost (total_cost self) in
       Ok (fmul q f100)
     else Ok f0) in
  let '(object_name, index_name) := object_names (ET.findall relop "Object") in
  let warnings := statistics_warnings relop in
  let? actual_rows :=
    match ET.get relop "ActualRows" with
    | Some actual_rows_attr =>
        if PyStr.truthy actual_rows_attr then
          let? a := py_float actual_rows_attr in
          let? n := py_int a in
          Ok (Some n)
        else Ok None
    | None => Ok None
    end in
  let details : gmap string string :=
    <["estimated_io" := ET.get_default relop "EstimateIO" "0"]>
    (<["estimated_cpu" := ET.get_default relop "EstimateCPU" "0"]>
    (<["estimated_cost" := format_f 4 estimated_cost]>
    (<["physical_op" := physical_op]>
    (<["logical_op" := ET.get_default relop "LogicalOp" ""]> ∅)))) in
  Ok (Some (mkOperatorInfo physical_op cost_percentage estimated_rows actual_rows
                           object_name index_name warnings details)).

(** The index name built by [_generate_create_index]. *)
Definition synthesized_index_name (table : string) (equality : list string) : string :=
  let table_parts := PyStr.split "." table in
  let table_name :=
    if (2 <=? length table_parts)%nat then List.last table_parts "" else table in
  let index_name :=
    PyStr.remove_char "]"
      (PyStr.remove_char "["
         ("IX_" +:+ table_name +:+ "_" +:+ PyStr.join "_" (firstn 3 equality))) in
  if (60 <? String.length index_name)%nat then PyStr.take 60 index_name else index_name.

(** The newline character of the generated statement. *)
Definition nl : string := String "010"%char EmptyString.

(** [f"[{col}]"] *)
Definition bracketed (col : string) : string := "[" +:+ col +:+ "]".

Definition _generate_create_index
    (table : string) (equality inequality included : list string) : string :=
  let index_name := synthesized_index_name table equality in
  let key_columns := equality ++ inequality in
  let key_cols_str := PyStr.join ", " (map bracketed key_columns) in
  let include_clause :=
    match included with
    | [] => ""
    | _ :: _ =>
        let include_cols_str := PyStr.join ", " (map bracketed included) in
        nl +:+ "INCLUDE (" +:+ include_cols_str +:+ ")"
    end in
  "CREATE NONCLUSTERED INDEX " +:+ index_name +:+ nl +:+ "ON " +:+ table +:+
  " (" +:+ key_cols_str +:+ ")" +:+ include_clause +:+ ";".

(** The three warning shapes of the scan and lookup rules share their tail. *)
Definition rows_and_cost (op : OperatorInfo) : string :=
  "(" +:+ format_comma (estimated_rows op) +:+ " rows, " +:+
  format_f 1 (cost_percentage op) +:+ "% cost) - ".

Definition table_scan_warning (op : OperatorInfo) : string :=
  "🔴 TABLE SCAN on " +:+ object_name op +:+ " " +:+ rows_and_cost op +:+
  "Consider adding an index".

Definition clustered_scan_warning (op : OperatorInfo) : string :=
  "🟡 CLUSTERED INDEX SCAN on " +:+ object_name op +:+ " " +:+ rows_and_cost op +:+
  "Consider adding a non-clustered index".

Definition key_lookup_warning (op : OperatorInfo) : string :=
  "🟡 KEY LOOKUP on " +:+ object_name op +:+ " " +:+ rows_and_cost op +:+
  "Consider creating a covering index with INCLUDE columns".

Definition sort_warning (op : OperatorInfo) : string :=
  "🟡 SORT operation on " +:+ format_comma (estimated_rows op) +:+ " rows " +:+
  "(" +:+ format_f 1 (cost_percentage op) +:+ "% cost) - " +:+
  "Consider adding an index to avoid sorting".

Definition hash_match_warning (op : OperatorInfo) : string :=
  "🟡 HASH MATCH join " +:+ rows_and_cost op +:+
  "Consider adding indexes to enable merge or nested loop joins".

Definition implicit_conversion_warning (op : OperatorInfo) : string :=
  "🔴 IMPLICIT CONVERSION on " +:+ object_name op +:+ " - " +:+
  "Prevents index usage and degrades performance".

Definition row_estimation_warning (op : OperatorInfo) (actual : Z) : string :=
  "🟡 ROW ESTIMATION ERROR on " +:+ object_name op +:+ ": " +:+
  "estimated " +:+ format_comma (estimated_rows op) +:+
  ", actual " +:+ format_comma actual +:+ " - " +:+
  "Update statistics or check for parameter sniffing".

(** The [if]/[elif] chain on the physical operator. *)
Definition check_physical_op (op : OperatorInfo) : M unit :=
  let physical_op := name op in
  if String.eqb physical_op "Table Scan" then
    append_warning (table_scan_warning op)
  else if String.eqb physical_op "Clustered Index Scan" then
    if flt f20 (cost_percentage op) then append_warning (clustered_scan_warning op)
    else ret tt
  else if (String.eqb physical_op "Key Lookup" || String.eqb physical_op "RID Lookup")%bool then
    append_warning (key_lookup_warning op)
  else if String.eqb physical_op "Sort" then
    if 100000 <? estimated_rows op then append_warning (sort_warning op)
    else ret tt
  else if String.eqb physical_op "Hash Match" then
    if flt f25 (cost_percentage op) then append_warning (hash_match_warning op)
    else ret tt
  else ret tt.

(** The implicit-conversion rule over the operator's own warnings. *)
Definition check_implicit_conversion (op : OperatorInfo) : M unit :=
  match op_warnings op with
  | [] => ret tt
  | _ :: _ =>
      for_each (op_warnings op) (fun warning =>
        if PyStr.contains "CONVERT_IMPLICIT" (PyStr.upper warning) then
          append_warning (implicit_conversion_warning op)
        else ret tt)
  end.

(** The row-estimation rule. *)
Definition check_row_estimation (op : OperatorInfo) : M unit :=
  match actual_rows op with
  | Some actual =>
      if 0 <? estimated_rows op then
        let* ratio := eval (fun _ => int_truediv actual (estimated_rows op)) in
        if (flt f10 ratio || flt ratio f0_1)%bool then
          append_warning (row_estimation_warning op actual)
        else ret tt
      else ret tt
  | None => ret tt
  end.

Definition _check_problem_operators
    (relop : Element) (operator_info : option OperatorInfo) : M unit :=
  match operator_info with
  | None => ret tt
  | Some op =>
      check_physical_op op >>
      check_implicit_conversion op >>
      check_row_estimation op
  end.

Definition _analyze_operators (root : Element) : M unit :=
  for_each (ET.findall root "RelOp") (fun relop =>
    let* operator_info := eval (fun self => _extract_operator_info self relop) in
    let* threshold := eval (fun self => Ok (threshold_percentage self)) in
    (match operator_info with
     | Some op =>
         if fle threshold (cost_percentage op) then append_expensive op else ret tt
     | None => ret tt
     end) >>
    _check_problem_operators relop operator_info).

(** [[col.get('Name', '').strip('[]') for col in col_group.findall('.//p:Column')]] *)
Definition group_columns (col_group : Element) : list string :=
  map (fun col => PyStr.strip "[]" (ET.get_default col "Name" ""))
      (ET.findall col_group "Column").

(** The loop over the column groups of one suggestion: a group overwrites
    the list of its usage. *)
Definition column_groups (idx : Element) : list string * list string * list string :=
  fold_left
    (fun (acc : list string * list string * list string) col_group =>
       let '(equality_cols, inequality_cols, included_cols) := acc in
       let usage := ET.get_default col_group "Usage" "" in
       let columns := group_columns col_group in
       if String.eqb usage "EQUALITY" then (columns, inequality_cols, included_cols)
       else if String.eqb usage "INEQUALITY" then (equality_cols, columns, included_cols)
       else if String.eqb usage "INCLUDE" then (equality_cols, inequality_cols, columns)
       else acc)
    (ET.findall idx "ColumnGroup") ([], [], []).

(** The record built for one suggestion. *)
Definition missing_index_record (impact : spec_float) (idx : Element) : MissingIndex :=
  let table := PyStr.strip "[]" (ET.get_default idx "Table" "") in
  let '(equality_cols, inequality_cols, included_cols) := column_groups idx in
  let create_stmt :=
    _generate_create_index table equality_cols inequality_cols included_cols in
  mkMissingIndex impact table equality_cols inequality_cols included_cols create_stmt.

Definition _extract_missing_indexes (root : Element) : M unit :=
  for_each (ET.findall_child root "MissingIndexes" "MissingIndexGroup") (fun missing_idx =>
    let* impact := eval (fun _ => float_attr missing_idx "Impact") in
    for_each (ET.findall missing_idx "MissingIndex") (fun idx =>
      append_missing (missing_index_record impact idx))).

Definition no_join_predicate_warning : string :=
  "🔴 NO JOIN PREDICATE - Cartesian product detected! " +:+
  "This will multiply all rows from both tables.".

Definition unmatched_indexes_warning : string :=
  "🟡 UNMATCHED INDEXES - Some indexes could not be matched to query".

Definition _extract_warnings (root : Element) : M unit :=
  for_each (ET.findall root "Warnings") (fun warning =>
    (match ET.find warning "NoJoinPredicate" with
     | Some _ => append_warning no_join_predicate_warning
     | None => ret tt
     end) >>
    for_each (ET.findall warning "UnmatchedIndexes") (fun _ =>
      append_warning unmatched_indexes_warning)).

Definition analyze_plan (root : Element) : M unit :=
  _extract_total_cost root >>
  _analyze_operators root >>
  _extract_missing_indexes root >>
  _extract_warnings root.

(** ** The command-line driver *)

(** What [ET.parse(file_path)] does with a path. *)
Inductive ParseOutcome : Type :=
| Parsed (root : Element)
| ParseError (msg : string)
| FileNotFoundError.

(** The part of the file system the program looks at. *)
Record World : Type := mkWorld {
  path_exists : string -> bool;      (* [Path(p).exists()] *)
  ET_parse : string -> ParseOutcome  (* [ET.parse(p)] *)
}.

(** What the program writes with [print]: a line of text, or the whole
    report of [print_report] for the instance in the given state. *)
Inductive Output : Type :=
| Print (text : string)
| PrintReport (self : ExecutionPlanAnalyzer).

(** How a call or the process ends. *)
Inductive Exit : Type :=
| Returned                  (* falls off the end *)
| SysExit (code : Z)        (* [sys.exit(code)] *)
| Uncaught (e : PyExc).     (* an exception nobody handles *)

(** One run of the program: what went to standard output, what the program
    wrote to the error stream, and how it ended. *)
Record Run : Type := mkRun {
  stdout : list Output;
  stderr : list string;
  status : Exit
}.

(** The exit code the shell sees. *)
Definition exit_code (r : Run) : Z :=
  match status r with
  | Returned => 0
  | SysExit code => code
  | Uncaught _ => 1
  end.

Definition analyze_file (w : World) (self : ExecutionPlanAnalyzer) (file_path : string)
  : list Output * Exit * ExecutionPlanAnalyzer :=
  match ET_parse w file_path with
  | Parsed root =>
      match analyze_plan root self with
      | (Ok _, self') => ([], Returned, self')
      | (Raise e, self') => ([], Uncaught e, self')
      end
  | ParseError msg =>
      ([Print ("Error parsing XML file: " +:+ msg)], SysExit 1, self)
  | FileNotFoundError =>
      ([Print ("Error: File '" +:+ file_path +:+ "' not found")], SysExit 1, self)
  end.

(** [main], after [argparse] has produced [args.file] and [args.threshold]. *)
Definition main (w : World) (file : string) (threshold : spec_float) : Run :=
  if negb (path_exists w file) then
    mkRun [Print ("Error: File '" +:+ file +:+ "' not found")] [] (SysExit 1)
  else
    let banner := Print (nl +:+ "Analyzing execution plan: " +:+ file) in
    let analyzer := __init__ threshold in
    match analyze_file w analyzer file with
    | (out, Returned, analyzer') =>
        mkRun (banner :: out ++ [PrintReport analyzer']) [] Returned
    | (out, ending, _) => mkRun (banner :: out) [] ending
    end.

(** * Sample documents *)

Definition elem (local : string) (attrs : list (string * string)) (cs : list Element)
  : Element :=
  Elem (ET.qname local) (list_to_map attrs) cs.

(** Scenario B: one missing-index group. *)
Definition scenario_B : Element :=
  elem "ShowPlanXML" []
    [elem "MissingIndexes" []
       [elem "MissingIndexGroup" [("Impact", "95.5")]
          [elem "MissingIndex" [("Table", "[dbo].[Employees]")]
             [elem "ColumnGroup" [("Usage", "EQUALITY")]
                [elem "Column" [("Name", "Department")] []];
              elem "ColumnGroup" [("Usage", "INCLUDE")]
                [elem "Column" [("Name", "Salary")] []]]]]].

(** * Reasoning about the instance state *)

(** The instance with further entries at the end of its three lists and a
    possibly new total cost. *)
Definition extended (self : ExecutionPlanAnalyzer)
    (ops : list OperatorInfo) (mis : list MissingIndex) (ws : list string)
    (total : spec_float) : ExecutionPlanAnalyzer :=
  mkAnalyzer (threshold_percentage self) (expensive_operators self ++ ops)
             (missing_indexes self ++ mis) (warnings self ++ ws) total.

(** The same instance with empty lists. *)
Definition cleared (self : ExecutionPlanAnalyzer) : ExecutionPlanAnalyzer :=
  mkAnalyzer (threshold_percentage self) [] [] [] (total_cost self).

(** The instance with entries put in front of its three lists. *)
Definition prefixed (ops : list OperatorInfo) (mis : list MissingIndex) (ws : list string)
    (self : ExecutionPlanAnalyzer) : ExecutionPlanAnalyzer :=
  mkAnalyzer (threshold_percentage self) (ops ++ expensive_operators self)
             (mis ++ missing_indexes self) (ws ++ warnings self) (total_cost self).



(** [appends P_op P_mi P_w keep c]: whatever [c] returns or raises, it only
    adds entries at the end of the three lists, each added entry satisfying
    its predicate; with [keep] it also leaves the total cost alone. *)
Definition appends (P_op : OperatorInfo -> Prop) (P_mi : MissingIndex -> Prop)
    (P_w : string -> Prop) {A : Type} (keep : bool) (c : M A) : Prop :=
  forall self, exists ops mis ws total,
    snd (c self) = extended self ops mis ws total /\
    Forall P_op ops /\ Forall P_mi mis /\ Forall P_w ws /\
    (keep = true -> total = total_cost self).

(** [c] does not look at the entries already in the lists: run on an
    instance with entries in front, it behaves as on the instance without
    them and leaves them in front. *)
Definition list_blind {A : Type} (c : M A) : Prop :=
  forall ops mis ws self,
    c (prefixed ops mis ws self) = (fst (c self), prefixed ops mis ws (snd (c self))).

(** The entries a computation adds to each list. *)
Definition new_warnings (c : M unit) (self : ExecutionPlanAnalyzer) : list string :=
  drop (length (warnings self)) (warnings (snd (c self))).

Definition new_missing_indexes (c : M unit) (self : ExecutionPlanAnalyzer)
  : list MissingIndex :=
  drop (length (missing_indexes self)) (missing_indexes (snd (c self))).

Definition new_expensive_operators (c : M unit) (self : ExecutionPlanAnalyzer)
  : list OperatorInfo :=
  drop (length (expensive_operators self)) (expensive_operators (snd (c self))).

(** A warning of the row-estimation rule, recognised by how it starts. *)
Definition is_row_estimation_warning (w : string) : bool :=
  PyStr.startswith "🟡 ROW ESTIMATION ERROR on " w.

(** What the row-estimation rule adds for an operator. *)
Definition row_estimation_part (op : OperatorInfo) : list string :=
  warnings (snd (check_row_estimation op (__init__ f0))).

(** A plan with one statement of total cost 10.0 and one index-seek
    operator with the given estimated and actual row counts. *)
Definition seek_operator (est act : string) : Element :=
  elem "RelOp"
    [("PhysicalOp", "Index Seek"); ("EstimatedTotalSubtreeCost", "1.0");
     ("EstimateRows", est); ("ActualRows", act)] [].

Definition plan_with_rows (est act : string) : Element :=
  elem "ShowPlanXML" []
    [elem "StmtSimple" [("StatementSubTreeCost", "10.0")] [seek_operator est act]].

(** The bare table name: what follows the last dot of the identifier, the
    whole identifier when it has no dot. *)
Definition bare_table_name (table : string) : string :=
  List.last (PyStr.split "." table) "".

(** The statement scenario B expects for [[dbo].[Employees]]. *)
Definition scenario_B_expected_statement : string :=
  "CREATE NONCLUSTERED INDEX IX_Employees_Department" +:+ nl +:+
  "ON [dbo].[Employees] ([Department])" +:+ nl +:+
  "INCLUDE ([Salary]);".

(** A nested-loops join over two scans, each with its own object reference. *)
Definition join_operator : Element :=
  elem "RelOp" [("PhysicalOp", "Nested Loops")]
    [elem "NestedLoops" []
       [elem "RelOp" [("PhysicalOp", "Index Seek")]
          [elem "IndexScan" []
             [elem "Object" [("Table", "[Orders]"); ("Index", "[PK_Orders]")] []]];
        elem "RelOp" [("PhysicalOp", "Index Seek")]
          [elem "IndexScan" []
             [elem "Object" [("Table", "[Customers]"); ("Index", "[IX_Customers]")] []]]]].

(** The column groups of a suggestion that carry a given usage tag. *)
Definition has_usage (usage : string) (col_group : Element) : bool :=
  String.eqb (ET.get_default col_group "Usage" "") usage.

(** The columns of the last column group with the given usage tag, none
    when there is no such group. *)
Definition columns_with_usage (usage : string) (idx : Element) : list string :=
  match List.filter (has_usage usage) (rev (ET.findall idx "ColumnGroup")) with
  | g :: _ => group_columns g
  | [] => []
  end.



(** A plan with one statement of the given total cost and one operator of
    the given subtree cost. *)
Definition costed_operator (cost : string) : Element :=
  elem "RelOp" [("PhysicalOp", "Index Seek"); ("EstimatedTotalSubtreeCost", cost)] [].

Definition costed_plan (total cost : string) : Element :=
  elem "ShowPlanXML" []
    [elem "StmtSimple" [("StatementSubTreeCost", total)] [costed_operator cost]].





(** The line [main] prints before it analyses the file. *)
Definition analyzing_line (file : string) : Output :=
  Print (nl +:+ "Analyzing execution plan: " +:+ file).

Definition not_found_line (file : string) : Output :=
  Print ("Error: File '" +:+ file +:+ "' not found").

Definition parse_error_line (msg : string) : Output :=
  Print ("Error parsing XML file: " +:+ msg).

(** [print_report] ran. *)
Definition is_report (o : Output) : bool :=
  match o with
  | PrintReport _ => true
  | Print _ => false
  end.

(** A file system without the file, and one where the file is not
    well-formed XML. *)
Definition world_without_file : World :=
  mkWorld (fun _ => false) (fun _ => FileNotFoundError).

Definition world_with_malformed_file : World :=
  mkWorld (fun _ => true) (fun _ => ParseError "syntax error: line 1, column 0").

(** A warning of one of the other rules. *)
Definition other_rule (w : string) : Prop := is_row_estimation_warning w = false.

(** Predicates that hold of every entry. *)
Definition any_op (_ : OperatorInfo) : Prop := True.
Definition any_mi (_ : MissingIndex) : Prop := True.
Definition any_w (_ : string) : Prop := True.

(** [c] returns a value in every state. *)
Definition never_raises {A : Type} (c : M A) : Prop :=
  forall self, exists a, fst (c self) = Ok a.

(** Scenario C: a plan-level warning block with a no-join-predicate marker. *)
Definition scenario_C : Element :=
  elem "ShowPlanXML" []
    [elem "StmtSimple" [("StatementSubTreeCost", "1.0")]
       [elem "Warnings" [] [elem "NoJoinPredicate" [] []]]].

(** A table scan whose cost share is below the default threshold. *)
Definition cheap_scan_plan : Element :=
  elem "ShowPlanXML" []
    [elem "StmtSimple" [("StatementSubTreeCost", "100")]
       [elem "RelOp"
          [("PhysicalOp", "Table Scan"); ("EstimatedTotalSubtreeCost", "2.5");
           ("EstimateRows", "1234567.8")]
          [elem "TableScan" [] [elem "Object" [("Table", "[Orders]")] []]]]].

(** The name and the rendered cost share of an operator record. *)
Definition summary (op : OperatorInfo) : string * string :=
  (name op, format_f 1 (cost_percentage op)).

From Stdlib Require Import Sorting.Sorted Sorting.Permutation.

(** * The report *)

(** ** [repr] of a float, as [f"{x}"] renders it *)

Module PyRepr.

(** Equality of two float values as data. *)
Definition same_float (x y : spec_float) : bool :=
  match x, y with
  | S754_zero s, S754_zero t => Bool.eqb s t
  | S754_infinity s, S754_infinity t => Bool.eqb s t
  | S754_nan, S754_nan => true
  | S754_finite s m e, S754_finite t n f => Bool.eqb s t && Pos.eqb m n && Z.eqb e f
  | _, _ => false
  end.

(** The smallest [k], counting up from [k], with [num * 10^k >= den]. *)
Fixpoint first_scale (fuel : nat) (num den k : Z) : Z :=
  match fuel with
  | O => k
  | S fuel' => if den <=? num * 10 ^ k then k else first_scale fuel' num den (k + 1)
  end.

(** The position of the decimal point of the positive number [num / den]:
    the [d] with [10^(d-1) <= num / den < 10^d]. *)
Definition decimal_point (num den : Z) : Z :=
  if den <=? num then Z.of_nat (String.length (digits_of (num / den)))
  else 1 - first_scale 400 num den 1.

(** The [n]-digit decimal next to [num / den] that reads back as [x], if
    there is one: of the two [n]-digit neighbours, the nearer one that
    round-trips. *)
Definition round_trip_digits (x : spec_float) (num den d : Z) (n : Z) : option Z :=
  let s := n - d in
  let vn := if 0 <=? s then num * 10 ^ s else num in
  let vd := if 0 <=? s then den else den * 10 ^ (- s) in
  let lo := vn / vd in
  let r := vn mod vd in
  let back c := same_float (decimal_to_float false c (- s)) x in
  let lo_ok := back lo in
  let hi_ok := negb (r =? 0) && back (lo + 1) in
  if lo_ok && hi_ok then
    match 2 * r ?= vd with
    | Lt => Some lo
    | Gt => Some (lo + 1)
    | Eq => Some (if Z.even lo then lo else lo + 1)
    end
  else if lo_ok then Some lo
  else if hi_ok then Some (lo + 1)
  else None.

(** The shortest such decimal, trying 1, 2, ... digits. *)
Fixpoint shortest_from (fuel : nat) (x : spec_float) (num den d : Z) (n : Z) : Z * Z :=
  match fuel with
  | O => (0, n)
  | S fuel' =>
      match round_trip_digits x num den d n with
      | Some c => (c, n)
      | None => shortest_from fuel' x num den d (n + 1)
      end
  end.

Fixpoint strip_zeros_rev (s : string) : string :=
  match s with
  | String "0" s' => strip_zeros_rev s'
  | _ => s
  end.

(** The significant digits of the positive float with mantissa [m] and
    exponent [e], without trailing zeros, and the position of its decimal
    point relative to their start. *)
Definition shortest_digits (m : positive) (e : Z) : string * Z :=
  let num := if 0 <=? e then Zpos m * 2 ^ e else Zpos m in
  let den := if 0 <=? e then 1 else 2 ^ (- e) in
  let d := decimal_point num den in
  let '(c, n) := shortest_from 17 (S754_finite false m e) num den d 1 in
  let ds := digits_of c in
  (PyStr.rev (strip_zeros_rev (PyStr.rev ds)), d + Z.of_nat (String.length ds) - n).

(** The exponent of the scientific notation: a sign and at least two digits. *)
Definition exponent_text (ex : Z) : string :=
  let ds := digits_of (Z.abs ex) in
  (if ex <? 0 then "-" else "+") +:+ (if (String.length ds <? 2)%nat then "0" +:+ ds else ds).

(** Lays the digits out: scientific notation when the decimal point is
    more than 16 places to the right of the first digit or 4 or more to its
    left, positional notation with at least one fractional digit otherwise. *)
Definition layout (ds : string) (decpt : Z) : string :=
  let n := Z.of_nat (String.length ds) in
  if (decpt <=? -4) || (16 <? decpt) then
    PyStr.take 1 ds +:+
    (if 1 <? n then "." +:+ String.substring 1 (String.length ds - 1) ds else "") +:+
    "e" +:+ exponent_text (decpt - 1)
  else if decpt <=? 0 then
    "0." +:+ PyStr.repeat_char "0" (Z.to_nat (- decpt)) +:+ ds
  else if n <=? decpt then
    ds +:+ PyStr.repeat_char "0" (Z.to_nat (decpt - n)) +:+ ".0"
  else
    PyStr.take (Z.to_nat decpt) ds +:+ "." +:+
    String.substring (Z.to_nat decpt) (String.length ds - Z.to_nat decpt) ds.

(** [repr(x)], which is also [str(x)] and [f"{x}"]. *)
Definition float_repr (x : spec_float) : string :=
  match x with
  | S754_nan => "nan"
  | S754_infinity s => if s then "-inf" else "inf"
  | S754_zero s => if s then "-0.0" else "0.0"
  | S754_finite s m e =>
      let '(ds, decpt) := shortest_digits m e in
      (if s then "-" else "") +:+ layout ds decpt
  end.

End PyRepr.

(** ** [sorted(xs, key=..., reverse=True)] for float keys *)

(** Puts [x] into a list sorted from high to low: behind the entries whose
    key is above its own, before the others. *)
Fixpoint insert_desc {A : Type} (key : A -> spec_float) (x : A) (l : list A) : list A :=
  match l with
  | [] => [x]
  | y :: l' => if flt (key x) (key y) then y :: insert_desc key x l' else x :: l
  end.

(** The stable sort from high to low.  The library sorts with [<] on the
    keys and keeps entries with equal keys in their order; for keys that
    [<] orders (no NaN among them) this is that list. *)
Fixpoint sorted_desc {A : Type} (key : A -> spec_float) (l : list A) : list A :=
  match l with
  | [] => []
  | x :: l' => insert_desc key x (sorted_desc key l')
  end.

(** [enumerate(xs, start)] *)
Fixpoint enumerate {A : Type} (start : Z) (xs : list A) : list (Z * A) :=
  match xs with
  | [] => []
  | x :: xs' => (start, x) :: enumerate (start + 1) xs'
  end.

(** [str(n)] for an int. *)
Definition int_str (n : Z) : string :=
  (if n <? 0 then "-" else "") +:+ digits_of (Z.abs n).

(** [len(xs)], rendered. *)
Definition len_str {A : Type} (xs : list A) : string :=
  int_str (Z.of_nat (length xs)).

(** ** [print_report] *)

(** Each entry of the result is the argument of one call of [print], in the
    order of the calls. *)

Definition rule (c : ascii) : string := PyStr.repeat_char c 80.

(** The lines for one expensive operator. *)
Definition operator_lines (op : OperatorInfo) : list string :=
  [nl +:+ "   Operator: " +:+ name op;
   "   Cost: " +:+ format_f 1 (cost_percentage op) +:+ "%";
   "   Object: " +:+ (if PyStr.truthy (object_name op) then object_name op else "N/A")] ++
  (if PyStr.truthy (index_name op) then ["   Index: " +:+ index_name op] else []) ++
  ["   Estimated Rows: " +:+ format_comma (estimated_rows op)] ++
  match actual_rows op with
  | Some actual => ["   Actual Rows: " +:+ format_comma actual]
  | None => []
  end ++
  map (fun warning => "   ⚠️  " +:+ warning) (op_warnings op).

(** The lines for one missing-index suggestion, numbered [i]. *)
Definition missing_index_lines (i : Z) (idx : MissingIndex) : list string :=
  [nl +:+ int_str i +:+ ". Table: " +:+ table_name idx;
   "   Impact: " +:+ format_f 1 (impact idx) +:+ "%"] ++
  match equality_columns idx with
  | [] => []
  | _ :: _ => ["   Equality Columns: " +:+ PyStr.join ", " (equality_columns idx)]
  end ++
  match inequality_columns idx with
  | [] => []
  | _ :: _ => ["   Inequality Columns: " +:+ PyStr.join ", " (inequality_columns idx)]
  end ++
  match included_columns idx with
  | [] => []
  | _ :: _ => ["   Include Columns: " +:+ PyStr.join ", " (included_columns idx)]
  end ++
  [nl +:+ "   Suggested Index:" +:+ nl +:+ "   " +:+ create_statement idx].

Definition summary_lines (self : ExecutionPlanAnalyzer) : list string :=
  [nl +:+ "📊 Summary:";
   "   Total Query Cost: " +:+ format_f 4 (total_cost self);
   "   Expensive Operators (>" +:+ PyRepr.float_repr (threshold_percentage self) +:+ "%): " +:+
     len_str (expensive_operators self);
   "   Missing Indexes: " +:+ len_str (missing_indexes self);
   "   Warnings: " +:+ len_str (warnings self)].

Definition expensive_section (self : ExecutionPlanAnalyzer) : list string :=
  match expensive_operators self with
  | [] => []
  | _ :: _ =>
      [nl +:+ "🔥 Expensive Operators (>" +:+
         PyRepr.float_repr (threshold_percentage self) +:+ "% cost):";
       rule "-"] ++
      flat_map operator_lines (sorted_desc cost_percentage (expensive_operators self))
  end.

Definition warnings_section (self : ExecutionPlanAnalyzer) : list string :=
  match warnings self with
  | [] => []
  | _ :: _ =>
      [nl +:+ "⚠️  Warnings and Recommendations:"; rule "-"] ++
      map (fun iw : Z * string => nl +:+ int_str (fst iw) +:+ ". " +:+ snd iw)
          (enumerate 1 (warnings self))
  end.

Definition missing_section (self : ExecutionPlanAnalyzer) : list string :=
  match missing_indexes self with
  | [] => []
  | _ :: _ =>
      [nl +:+ "📋 Missing Index Recommendations:"; rule "-"] ++
      flat_map (fun ii : Z * MissingIndex => missing_index_lines (fst ii) (snd ii))
               (enumerate 1 (sorted_desc impact (missing_indexes self)))
  end.

Definition best_practices : list string :=
  [nl +:+ "💡 Best Practices:";
   rule "-";
   "1. Focus on operators with >25% cost first";
   "2. Table scans and index scans indicate missing indexes";
   "3. Key lookups can be fixed with covering indexes (INCLUDE clause)";
   "4. Implicit conversions prevent index usage - match data types";
   "5. Large row estimation errors suggest outdated statistics";
   "6. Test index changes in non-production environment first"].

Definition print_report (self : ExecutionPlanAnalyzer) : list string :=
  [nl +:+ rule "="; "EXECUTION PLAN ANALYSIS REPORT"; rule "="] ++
  summary_lines self ++
  expensive_section self ++
  warnings_section self ++
  missing_section self ++
  best_practices ++
  [nl +:+ rule "=" +:+ nl].



(** * Predicates for the further properties *)

(** [c] raises nothing but exceptions in [P]. *)
Definition raises_only {A : Type} (P : PyExc -> Prop) (c : M A) : Prop :=
  forall self e, fst (c self) = Raise e -> P e.

(** The exceptions of the numeric conversions. *)
Definition conversion_error (e : PyExc) : Prop :=
  e = ValueError \/ e = OverflowError.

(** Two instances that agree on everything but the threshold and the list
    of expensive operators. *)
Definition same_findings (s t : ExecutionPlanAnalyzer) : Prop :=
  missing_indexes s = missing_indexes t /\
  warnings s = warnings t /\
  total_cost s = total_cost t.

(** [c] does not let the threshold or the expensive operators influence
    its result, the other findings or the total cost. *)
Definition threshold_blind {A : Type} (c : M A) : Prop :=
  forall s t, same_findings s t ->
    fst (c s) = fst (c t) /\ same_findings (snd (c s)) (snd (c t)).

(** The instance with another threshold. *)
Definition with_threshold (threshold : spec_float) (self : ExecutionPlanAnalyzer)
  : ExecutionPlanAnalyzer :=
  mkAnalyzer threshold (expensive_operators self) (missing_indexes self)
             (warnings self) (total_cost self).

(** The instance with another total cost. *)
Definition with_total_cost (total : spec_float) (self : ExecutionPlanAnalyzer)
  : ExecutionPlanAnalyzer :=
  mkAnalyzer (threshold_percentage self) (expensive_operators self)
             (missing_indexes self) (warnings self) total.

(** A plan whose operator has an infinite estimated row count. *)
Definition infinite_rows_plan : Element :=
  elem "ShowPlanXML" []
    [elem "StmtSimple" [("StatementSubTreeCost", "10.0")]
       [elem "RelOp" [("PhysicalOp", "Index Seek"); ("EstimateRows", "inf")] []]].

(** A predicate that holds of no entry. *)
Definition no_op (_ : OperatorInfo) : Prop := False.
Definition no_mi (_ : MissingIndex) : Prop := False.
Definition no_w (_ : string) : Prop := False.

(** The operator clears the threshold. *)
Definition is_expensive (threshold : spec_float) (op : OperatorInfo) : bool :=
  fle threshold (cost_percentage op).

(** Three operators with cost shares of 5, 50 and 20 percent. *)
Definition three_operators : Element :=
  elem "ShowPlanXML" []
    [elem "StmtSimple" [("StatementSubTreeCost", "10")]
       [elem "RelOp" [("PhysicalOp", "Sort"); ("EstimatedTotalSubtreeCost", "0.5")] [];
        elem "RelOp" [("PhysicalOp", "Hash Match"); ("EstimatedTotalSubtreeCost", "5")] [];
        elem "RelOp" [("PhysicalOp", "Index Seek"); ("EstimatedTotalSubtreeCost", "2")] []]].

(** The body of the loop of [_analyze_operators]. *)
Definition analyze_operator (relop : Element) : M unit :=
  let* operator_info := eval (fun self => _extract_operator_info self relop) in
  let* threshold := eval (fun self => Ok (threshold_percentage self)) in
  (match operator_info with
   | Some op =>
       if fle threshold (cost_percentage op) then append_expensive op else ret tt
   | None => ret tt
   end) >>
  _check_problem_operators relop operator_info.



(** The marker occurs in the name, in any letter case. *)
Definition names_conversion (col : string) : bool :=
  PyStr.contains "CONVERT_IMPLICIT" (PyStr.upper col).


(** The last character of a string. *)
Fixpoint last_char (s : string) : option ascii :=
  match s with
  | EmptyString => None
  | String c EmptyString => Some c
  | String _ s' => last_char s'
  end.

(** Neither the first nor the last character of [s] belongs to [chars]. *)
Definition outer_free (chars : string) (s : string) : bool :=
  match s with
  | EmptyString => true
  | String c _ =>
      negb (PyStr.char_in c chars) &&
      match last_char s with
      | Some l => negb (PyStr.char_in l chars)
      | None => true
      end
  end.

(** A suggestion on a three-part table name with bracketed columns. *)
Definition qualified_plan : Element :=
  elem "ShowPlanXML" []
    [elem "MissingIndexes" []
       [elem "MissingIndexGroup" [("Impact", "12.5")]
          [elem "MissingIndex" [("Table", "[Sales].[dbo].[Orders]")]
             [elem "ColumnGroup" [("Usage", "EQUALITY")]
                [elem "Column" [("Name", "[CustomerId]")] []];
              elem "ColumnGroup" [("Usage", "INEQUALITY")]
                [elem "Column" [("Name", "[OrderDate]")] []]]]]].

(** What the plan-level collector has to say about one warnings block. *)
Definition block_warnings (warning : Element) : list string :=
  (match ET.find warning "NoJoinPredicate" with
   | Some _ => [no_join_predicate_warning]
   | None => []
   end) ++
  map (fun _ => unmatched_indexes_warning) (ET.findall warning "UnmatchedIndexes").

(** The same for all warnings blocks of the document, in document order. *)
Definition plan_level_warnings (root : Element) : list string :=
  flat_map block_warnings (ET.findall root "Warnings").

(** A plan with an operator warning and a warnings block that holds two
    no-join-predicate markers and two unmatched-indexes markers. *)
Definition warned_plan : Element :=
  elem "ShowPlanXML" []
    [elem "StmtSimple" [("StatementSubTreeCost", "4")]
       [elem "Warnings" []
          [elem "NoJoinPredicate" [] []; elem "NoJoinPredicate" [] [];
           elem "UnmatchedIndexes" [] []; elem "UnmatchedIndexes" [] []];
        elem "RelOp" [("PhysicalOp", "Table Scan"); ("EstimatedTotalSubtreeCost", "1");
                      ("EstimateRows", "10")]
          [elem "TableScan" [] [elem "Object" [("Table", "[T]")] []]]]].







(** The suggestions of the report, in the order of their blocks. *)
Definition report_suggestion_order (self : ExecutionPlanAnalyzer) : list MissingIndex :=
  sorted_desc impact (missing_indexes self).



(** * Properties *)

(** ** Append-only computations *)

Section Appends.

Variable P_op : OperatorInfo -> Prop.
Variable P_mi : MissingIndex -> Prop.
Variable P_w : string -> Prop.

Local Abbreviation appends := (appends P_op P_mi P_w).

Lemma extended_nil self : extended self [] [] [] (total_cost self) = self.
Proof. destruct self; unfold extended; simpl. by rewrite !app_nil_r. Qed.

Lemma extended_extended self o1 m1 w1 t1 o2 m2 w2 t2 :
  extended (extended self o1 m1 w1 t1) o2 m2 w2 t2
  = extended self (o1 ++ o2) (m1 ++ m2) (w1 ++ w2) t2.
Proof. unfold extended; simpl. by rewrite !app_assoc. Qed.

Lemma appends_ret {A} keep (a : A) : appends keep (ret a).
Proof.
  intros self. exists [], [], [], (total_cost self).
  simpl. rewrite extended_nil. repeat split; auto.
Qed.

Lemma appends_eval {A} keep (f : ExecutionPlanAnalyzer -> Result A) :
  appends keep (eval f).
Proof.
  intros self. exists [], [], [], (total_cost self).
  simpl. rewrite extended_nil. repeat split; auto.
Qed.

Lemma appends_bind {A B} keep (m : M A) (k : A -> M B) :
  appends keep m -> (forall a, appends keep (k a)) -> appends keep (bind m k).
Proof.
  intros Hm Hk self. unfold bind.
  destruct (Hm self) as (o1 & m1 & w1 & t1 & E1 & Fo1 & Fm1 & Fw1 & K1).
  destruct (m self) as [[a|e] self1] eqn:Em; simpl in E1; subst self1.
  - destruct (Hk a (extended self o1 m1 w1 t1))
      as (o2 & m2 & w2 & t2 & E2 & Fo2 & Fm2 & Fw2 & K2).
    exists (o1 ++ o2), (m1 ++ m2), (w1 ++ w2), t2.
    rewrite E2, extended_extended.
    repeat split; try (apply Forall_app; split; assumption).
    intros Hkeep. rewrite (K2 Hkeep). simpl. auto.
  - exists o1, m1, w1, t1. simpl. repeat split; auto.
Qed.

Lemma appends_for_each {A} keep (xs : list A) (body : A -> M unit) :
  (forall x, In x xs -> appends keep (body x)) -> appends keep (for_each xs body).
Proof.
  induction xs as [|x xs IH]; intros H; simpl.
  - apply appends_ret.
  - apply appends_bind.
    + apply H. by left.
    + intros _. apply IH. intros y Hy. apply H. by right.
Qed.

Lemma appends_append_warning keep w : P_w w -> appends keep (append_warning w).
Proof.
  intros Hw self. exists [], [], [w], (total_cost self).
  unfold append_warning, extended; simpl. rewrite !app_nil_r.
  repeat split; auto.
Qed.

Lemma appends_append_expensive keep op : P_op op -> appends keep (append_expensive op).
Proof.
  intros Hop self. exists [op], [], [], (total_cost self).
  unfold append_expensive, extended; simpl. rewrite !app_nil_r.
  repeat split; auto.
Qed.

Lemma appends_append_missing keep mi : P_mi mi -> appends keep (append_missing mi).
Proof.
  intros Hmi self. exists [], [mi], [], (total_cost self).
  unfold append_missing, extended; simpl. rewrite !app_nil_r.
  repeat split; auto.
Qed.

Lemma appends_set_total_cost c : appends false (set_total_cost c).
Proof.
  intros self. exists [], [], [], c.
  unfold set_total_cost, extended; simpl. rewrite !app_nil_r.
  repeat split; auto. discriminate.
Qed.

Lemma appends_weaken {A} (c : M A) : appends true c -> appends false c.
Proof.
  intros H self. destruct (H self) as (o & m & w & t & E & Fo & Fm & Fw & _).
  exists o, m, w, t. repeat split; auto. discriminate.
Qed.

End Appends.
(** ** Computations that do not read the lists *)

Section ListBlind.

Lemma prefixed_total ops mis ws self :
  total_cost (prefixed ops mis ws self) = total_cost self.
Proof. reflexivity. Qed.

Lemma prefixed_cleared self :
  prefixed (expensive_operators self) (missing_indexes self) (warnings self) (cleared self)
  = self.
Proof. destruct self; unfold prefixed, cleared; simpl. by rewrite !app_nil_r. Qed.

Lemma list_blind_ret {A} (a : A) : list_blind (ret a).
Proof. by intros ops mis ws self. Qed.

Lemma list_blind_eval {A} (f : ExecutionPlanAnalyzer -> Result A) :
  (forall ops mis ws self, f (prefixed ops mis ws self) = f self) ->
  list_blind (eval f).
Proof. intros H ops mis ws self. unfold eval; simpl. by rewrite H. Qed.

Lemma list_blind_bind {A B} (m : M A) (k : A -> M B) :
  list_blind m -> (forall a, list_blind (k a)) -> list_blind (bind m k).
Proof.
  intros Hm Hk ops mis ws self. unfold bind. rewrite Hm.
  destruct (m self) as [[a|e] self1]; simpl.
  - apply Hk.
  - reflexivity.
Qed.

Lemma list_blind_for_each {A} (xs : list A) (body : A -> M unit) :
  (forall x, list_blind (body x)) -> list_blind (for_each xs body).
Proof.
  intros H. induction xs as [|x xs IH]; simpl.
  - apply list_blind_ret.
  - apply list_blind_bind; auto.
Qed.

Lemma list_blind_append_warning w : list_blind (append_warning w).
Proof.
  intros ops mis ws self. unfold append_warning, prefixed; simpl.
  by rewrite app_assoc.
Qed.

Lemma list_blind_append_expensive op : list_blind (append_expensive op).
Proof.
  intros ops mis ws self. unfold append_expensive, prefixed; simpl.
  by rewrite app_assoc.
Qed.

Lemma list_blind_append_missing mi : list_blind (append_missing mi).
Proof.
  intros ops mis ws self. unfold append_missing, prefixed; simpl.
  by rewrite app_assoc.
Qed.

Lemma list_blind_set_total_cost c : list_blind (set_total_cost c).
Proof. by intros ops mis ws self. Qed.

End ListBlind.

(** ** Structure of the analysis passes *)

(** Splits a goal on every condition of an [if] in it. *)
Ltac branches :=
  repeat match goal with
         | |- context [if ?b then _ else _] => destruct b
         end.

Create HintDb blind.

#[local] Hint Resolve list_blind_ret list_blind_append_warning list_blind_append_expensive
  list_blind_append_missing list_blind_set_total_cost : blind.

Lemma list_blind__extract_total_cost root : list_blind (_extract_total_cost root).
Proof.
  unfold _extract_total_cost.
  induction (ET.findall root "StmtSimple") as [|stmt rest IH]; simpl.
  - apply list_blind_ret.
  - destruct (ET.get stmt "StatementSubTreeCost") as [cost|]; [|exact IH].
    destruct (PyStr.truthy cost); [|exact IH].
    apply list_blind_bind.
    + by apply list_blind_eval.
    + intros c. apply list_blind_set_total_cost.
Qed.

Lemma list_blind_check_physical_op op : list_blind (check_physical_op op).
Proof.
  unfold check_physical_op. branches; auto with blind.
Qed.

Lemma list_blind_check_implicit_conversion op : list_blind (check_implicit_conversion op).
Proof.
  unfold check_implicit_conversion.
  destruct (op_warnings op); [apply list_blind_ret|].
  apply list_blind_for_each. intros w.
  destruct (PyStr.contains _ _); auto with blind.
Qed.

Lemma list_blind_check_row_estimation op : list_blind (check_row_estimation op).
Proof.
  unfold check_row_estimation.
  destruct (actual_rows op) as [actual|]; [|apply list_blind_ret].
  destruct (0 <? estimated_rows op); [|apply list_blind_ret].
  apply list_blind_bind; [by apply list_blind_eval|].
  intros ratio. destruct (_ || _)%bool; auto with blind.
Qed.

Lemma list_blind__check_problem_operators relop info :
  list_blind (_check_problem_operators relop info).
Proof.
  destruct info as [op|]; simpl; [|apply list_blind_ret].
  apply list_blind_bind; [apply list_blind_check_physical_op|]. intros _.
  apply list_blind_bind; [apply list_blind_check_implicit_conversion|]. intros _.
  apply list_blind_check_row_estimation.
Qed.

Lemma list_blind__analyze_operators root : list_blind (_analyze_operators root).
Proof.
  unfold _analyze_operators. apply list_blind_for_each. intros relop.
  apply list_blind_bind; [by apply list_blind_eval|]. intros info.
  apply list_blind_bind; [by apply list_blind_eval|]. intros threshold.
  apply list_blind_bind; [|intros _; apply list_blind__check_problem_operators].
  destruct info as [op|]; [|apply list_blind_ret].
  destruct (fle _ _); auto with blind.
Qed.

Lemma list_blind__extract_missing_indexes root : list_blind (_extract_missing_indexes root).
Proof.
  unfold _extract_missing_indexes. apply list_blind_for_each. intros g.
  apply list_blind_bind; [by apply list_blind_eval|]. intros imp.
  apply list_blind_for_each. intros idx. apply list_blind_append_missing.
Qed.

Lemma list_blind__extract_warnings root : list_blind (_extract_warnings root).
Proof.
  unfold _extract_warnings. apply list_blind_for_each. intros w.
  apply list_blind_bind.
  - destruct (ET.find w "NoJoinPredicate"); auto with blind.
  - intros _. apply list_blind_for_each. intros _. apply list_blind_append_warning.
Qed.

Lemma list_blind_analyze_plan root : list_blind (analyze_plan root).
Proof.
  unfold analyze_plan.
  apply list_blind_bind; [apply list_blind__extract_total_cost|]. intros _.
  apply list_blind_bind; [apply list_blind__analyze_operators|]. intros _.
  apply list_blind_bind; [apply list_blind__extract_missing_indexes|]. intros _.
  apply list_blind__extract_warnings.
Qed.

(** ** Accumulation across analysis passes *)

Lemma list_blind_from_cleared (c : M unit) self :
  list_blind c ->
  expensive_operators (snd (c self))
    = expensive_operators self ++ expensive_operators (snd (c (cleared self))) /\
  missing_indexes (snd (c self))
    = missing_indexes self ++ missing_indexes (snd (c (cleared self))) /\
  warnings (snd (c self)) = warnings self ++ warnings (snd (c (cleared self))) /\
  total_cost (snd (c self)) = total_cost (snd (c (cleared self))) /\
  fst (c self) = fst (c (cleared self)).
Proof.
  intros Hc.
  pose proof (Hc (expensive_operators self) (missing_indexes self) (warnings self)
                 (cleared self)) as H.
  rewrite prefixed_cleared in H. rewrite H. simpl. done.
Qed.

(** C10: an analysis pass only appends to the three accumulator lists.
    Whatever was in [expensive_operators], [missing_indexes] and [warnings]
    before [analyze_plan] is still there afterwards, in its original
    position, followed by what the pass found; a second pass on the same
    instance therefore leaves the findings of both documents, the first
    document's before the second's. *)
Theorem analyze_plan_accumulates (root : Element) (self : ExecutionPlanAnalyzer) :
  let self1 := snd (analyze_plan root self) in
  let found1 := snd (analyze_plan root (cleared self)) in
  expensive_operators self1 = expensive_operators self ++ expensive_operators found1 /\
  missing_indexes self1 = missing_indexes self ++ missing_indexes found1 /\
  warnings self1 = warnings self ++ warnings found1 /\
  forall root2 : Element,
    let self2 := snd (analyze_plan root2 self1) in
    let found2 := snd (analyze_plan root2 (cleared self1)) in
    expensive_operators self2
      = expensive_operators self ++ expensive_operators found1 ++ expensive_operators found2 /\
    missing_indexes self2
      = missing_indexes self ++ missing_indexes found1 ++ missing_indexes found2 /\
    warnings self2 = warnings self ++ warnings found1 ++ warnings found2.
Proof.
  intros self1 found1.
  destruct (list_blind_from_cleared (analyze_plan root) self (list_blind_analyze_plan root))
    as (He & Hm & Hw & _).
  fold self1 found1 in He, Hm, Hw.
  repeat split; try assumption.
  - destruct (list_blind_from_cleared (analyze_plan root2) self1
                (list_blind_analyze_plan root2)) as (He2 & _).
    rewrite He2, He. by rewrite app_assoc.
  - destruct (list_blind_from_cleared (analyze_plan root2) self1
                (list_blind_analyze_plan root2)) as (_ & Hm2 & _).
    rewrite Hm2, Hm. by rewrite app_assoc.
  - destruct (list_blind_from_cleared (analyze_plan root2) self1
                (list_blind_analyze_plan root2)) as (_ & _ & Hw2 & _).
    rewrite Hw2, Hw. by rewrite app_assoc.
Qed.

(** ** Computations that cannot raise *)

Lemma never_raises_ret {A} (a : A) : never_raises (ret a).
Proof. intros self. by exists a. Qed.

Lemma never_raises_bind {A B} (m : M A) (k : A -> M B) :
  never_raises m -> (forall a, never_raises (k a)) -> never_raises (bind m k).
Proof.
  intros Hm Hk self. unfold bind. destruct (Hm self) as [a Ha].
  destruct (m self) as [[a'|e] s1]; simpl in Ha; [|discriminate].
  apply Hk.
Qed.

Lemma never_raises_for_each {A} (xs : list A) (body : A -> M unit) :
  (forall x, In x xs -> never_raises (body x)) -> never_raises (for_each xs body).
Proof.
  induction xs as [|x xs IH]; intros H; simpl.
  - apply never_raises_ret.
  - apply never_raises_bind; [apply H; by left|].
    intros _. apply IH. intros y Hy. apply H. by right.
Qed.

Lemma never_raises_append_warning w : never_raises (append_warning w).
Proof. intros self. by exists tt. Qed.

Lemma never_raises_append_expensive op : never_raises (append_expensive op).
Proof. intros self. by exists tt. Qed.

Lemma never_raises_append_missing mi : never_raises (append_missing mi).
Proof. intros self. by exists tt. Qed.


Lemma never_raises_unit (c : M unit) self : never_raises c -> fst (c self) = Ok tt.
Proof. intros H. destruct (H self) as [[] E]. exact E. Qed.

Lemma never_raises_check_physical_op op : never_raises (check_physical_op op).
Proof.
  unfold check_physical_op.
  branches; first [ apply never_raises_ret | apply never_raises_append_warning ].
Qed.

Lemma never_raises_check_implicit_conversion op :
  never_raises (check_implicit_conversion op).
Proof.
  unfold check_implicit_conversion.
  destruct (op_warnings op); [apply never_raises_ret|].
  apply never_raises_for_each. intros w _.
  destruct (PyStr.contains _ _);
    first [ apply never_raises_ret | apply never_raises_append_warning ].
Qed.

(** ** The classifier's warnings *)

Lemma new_warnings_extended (c : M unit) self ops mis ws total :
  snd (c self) = extended self ops mis ws total -> new_warnings c self = ws.
Proof. intros E. unfold new_warnings. rewrite E. simpl. apply drop_app_length. Qed.

Lemma check_physical_op_other op :
  appends any_op any_mi other_rule true (check_physical_op op).
Proof.
  unfold check_physical_op.
  branches; first [ apply appends_ret | apply appends_append_warning; reflexivity ].
Qed.

Lemma check_implicit_conversion_other op :
  appends any_op any_mi other_rule true (check_implicit_conversion op).
Proof.
  unfold check_implicit_conversion.
  destruct (op_warnings op); [apply appends_ret|].
  apply appends_for_each. intros w _.
  destruct (PyStr.contains _ _);
    first [ apply appends_ret | apply appends_append_warning; reflexivity ].
Qed.

(** The row-estimation rule, case by case. *)
Lemma row_estimation_part_cases op :
  row_estimation_part op =
  match actual_rows op with
  | Some actual =>
      if 0 <? estimated_rows op then
        match int_truediv actual (estimated_rows op) with
        | Ok ratio =>
            if (flt f10 ratio || flt ratio f0_1)%bool
            then [row_estimation_warning op actual] else []
        | Raise _ => []
        end
      else []
  | None => []
  end.
Proof.
  unfold row_estimation_part, check_row_estimation.
  destruct (actual_rows op) as [actual|]; [|reflexivity].
  destruct (0 <? estimated_rows op); [|reflexivity].
  unfold bind, eval. destruct (int_truediv actual (estimated_rows op)); [|reflexivity].
  destruct (_ || _)%bool; reflexivity.
Qed.

Lemma check_row_estimation_run op self :
  snd (check_row_estimation op self)
  = extended self [] [] (row_estimation_part op) (total_cost self).
Proof.
  rewrite row_estimation_part_cases. unfold check_row_estimation.
  destruct (actual_rows op) as [actual|]; [|simpl; by rewrite extended_nil].
  destruct (0 <? estimated_rows op); [|simpl; by rewrite extended_nil].
  unfold bind, eval.
  destruct (int_truediv actual (estimated_rows op)); [|simpl; by rewrite extended_nil].
  destruct (_ || _)%bool; simpl; [|by rewrite extended_nil].
  unfold extended; simpl. by rewrite !app_nil_r.
Qed.

(** What [_check_problem_operators] adds: warnings of the other rules,
    then the row-estimation rule's. *)
Lemma check_problem_operators_warnings relop op self :
  exists ws, Forall other_rule ws /\
    new_warnings (_check_problem_operators relop (Some op)) self
    = ws ++ row_estimation_part op.
Proof.
  destruct (check_physical_op_other op self)
    as (o1 & m1 & w1 & t1 & E1 & _ & _ & F1 & K1).
  specialize (K1 eq_refl). subst t1.
  destruct (check_implicit_conversion_other op (snd (check_physical_op op self)))
    as (o2 & m2 & w2 & t2 & E2 & _ & _ & F2 & K2).
  specialize (K2 eq_refl). subst t2.
  exists (w1 ++ w2). split; [by apply Forall_app|].
  unfold new_warnings, _check_problem_operators, bind.
  pose proof (never_raises_unit _ self (never_raises_check_physical_op op)) as R1.
  destruct (check_physical_op op self) as [r1 s1]; simpl in *. subst r1.
  pose proof (never_raises_unit _ s1 (never_raises_check_implicit_conversion op)) as R2.
  destruct (check_implicit_conversion op s1) as [r2 s2]; simpl in *. subst r2.
  rewrite check_row_estimation_run, E2, E1. simpl.
  rewrite <- !app_assoc. apply drop_app_length.
Qed.

Lemma Exists_row_estimation_app ws rest :
  Forall other_rule ws ->
  (Exists (fun w => is_row_estimation_warning w = true) (ws ++ rest)
   <-> Exists (fun w => is_row_estimation_warning w = true) rest).
Proof.
  intros F. rewrite Exists_app. split; [|by right].
  intros [H|H]; [|done]. exfalso.
  apply Exists_exists in H as (w & Hin & Hw).
  rewrite Forall_forall in F. specialize (F w). unfold other_rule in F.
  rewrite F in Hw; [discriminate|done].
Qed.

Lemma row_estimation_part_iff op :
  Exists (fun w => is_row_estimation_warning w = true) (row_estimation_part op) <->
  exists actual ratio,
    actual_rows op = Some actual /\ 0 < estimated_rows op /\
    int_truediv actual (estimated_rows op) = Ok ratio /\
    (flt f10 ratio = true \/ flt ratio f0_1 = true).
Proof.
  rewrite row_estimation_part_cases. split.
  - intros H.
    destruct (actual_rows op) as [actual|]; [|by apply Exists_nil in H].
    destruct (0 <? estimated_rows op) eqn:Hpos; [|by apply Exists_nil in H].
    destruct (int_truediv actual (estimated_rows op)) as [ratio|e] eqn:Hdiv;
      [|by apply Exists_nil in H].
    destruct (flt f10 ratio || flt ratio f0_1)%bool eqn:Hcmp; [|by apply Exists_nil in H].
    exists actual, ratio.
    split; [reflexivity|]. split; [by apply Z.ltb_lt|]. split; [exact Hdiv|].
    by apply orb_true_iff in Hcmp.
  - intros (actual & ratio & Ha & Hpos & Hdiv & Hcmp).
    rewrite Ha, Hdiv. apply Z.ltb_lt in Hpos. rewrite Hpos.
    apply orb_true_iff in Hcmp. rewrite Hcmp.
    apply Exists_cons_hd. reflexivity.
Qed.

(** C3, as the code has it: the row-estimation rule looks at an operator
    whose actual row count is known (zero included) and whose estimated row
    count is positive, and warns exactly when [actual / estimated] is above
    10 or below 0.1.  Every warning of that kind in what
    [_check_problem_operators] adds comes from this rule; an actual count of
    zero against a positive estimate gives the ratio 0 and is warned about. *)
Theorem row_estimation_warning_rule
    (relop : Element) (op : OperatorInfo) (self : ExecutionPlanAnalyzer) :
  let added := new_warnings (_check_problem_operators relop (Some op)) self in
  warnings (snd (_check_problem_operators relop (Some op) self)) = warnings self ++ added /\
  (Exists (fun w => is_row_estimation_warning w = true) added <->
   exists actual ratio,
     actual_rows op = Some actual /\ 0 < estimated_rows op /\
     int_truediv actual (estimated_rows op) = Ok ratio /\
     (flt f10 ratio = true \/ flt ratio f0_1 = true)) /\
  (forall est : positive,
     estimated_rows op = Zpos est -> actual_rows op = Some 0 ->
     In (row_estimation_warning op 0) added).
Proof.
  intros added.
  destruct (check_problem_operators_warnings relop op self) as (ws & F & E).
  fold added in E. repeat split.
  - destruct (list_blind_from_cleared _ self (list_blind__check_problem_operators relop (Some op)))
      as (_ & _ & Hw & _).
    unfold added, new_warnings. rewrite Hw. by rewrite drop_app_length.
  - rewrite E, Exists_row_estimation_app by assumption. apply row_estimation_part_iff.
  - rewrite E, Exists_row_estimation_app by assumption. apply row_estimation_part_iff.
  - intros est Hest Hact. rewrite E. apply in_or_app. right.
    rewrite row_estimation_part_cases, Hact, Hest. simpl. by left.
Qed.

Lemma row_estimation_warning_rule_witness :
  let op := mkOperatorInfo "Index Seek" f10 100 (Some 0) "" "" [] ∅ in
  In (row_estimation_warning op 0)
     (new_warnings (_check_problem_operators (seek_operator "100" "0") (Some op))
                   (__init__ f10)).
Proof.
  intros op.
  apply (proj2 (proj2 (row_estimation_warning_rule (seek_operator "100" "0") op (__init__ f10)))
           100%positive); reflexivity.
Defined.

(** The claim as written fails: an operator with 100 estimated rows and an
    actual row count of zero is warned about. *)
Lemma zero_actual_rows_counterexample :
  (exists op, _extract_operator_info (__init__ f10) (seek_operator "100" "0") = Ok (Some op) /\
              estimated_rows op = 100 /\ actual_rows op = Some 0) /\
  warnings (snd (analyze_plan (plan_with_rows "100" "0") (__init__ f10)))
  = ["🟡 ROW ESTIMATION ERROR on : estimated 100, actual 0 - Update statistics or check for parameter sniffing"] /\
  Exists (fun w => is_row_estimation_warning w = true)
         (warnings (snd (analyze_plan (plan_with_rows "100" "0") (__init__ f10)))).
Proof.
  split; [|split].
  - eexists. split; [vm_compute; reflexivity|]. split; reflexivity.
  - vm_compute. reflexivity.
  - apply Exists_cons_hd. vm_compute. reflexivity.
Qed.

(** C4: the thresholds of the row-estimation rule are strict.  With 100
    estimated rows, 1000 actual rows give the ratio 10 exactly and no
    row-estimation warning, whatever the operator's other fields are; 1001
    actual rows give a ratio above 10 and the warning.  The same on whole
    documents; and 10 actual rows give the ratio 0.1 exactly and no
    row-estimation warning either. *)
Theorem row_estimation_boundary
    (relop : Element) (nm : string) (cp : spec_float) (obj idx : string)
    (ows : list string) (det : gmap string string) (self : ExecutionPlanAnalyzer) :
  let op act := mkOperatorInfo nm cp 100 (Some act) obj idx ows det in
  let added act := new_warnings (_check_problem_operators relop (Some (op act))) self in
  int_truediv 1000 100 = Ok f10 /\
  Forall (fun w => is_row_estimation_warning w = false) (added 1000) /\
  (exists ratio, int_truediv 1001 100 = Ok ratio /\ flt f10 ratio = true) /\
  In (row_estimation_warning (op 1001) 1001) (added 1001) /\
  is_row_estimation_warning (row_estimation_warning (op 1001) 1001) = true /\
  warnings (snd (analyze_plan (plan_with_rows "100" "1000") (__init__ f10))) = [] /\
  warnings (snd (analyze_plan (plan_with_rows "100" "1001") (__init__ f10)))
  = ["🟡 ROW ESTIMATION ERROR on : estimated 100, actual 1,001 - Update statistics or check for parameter sniffing"] /\
  int_truediv 10 100 = Ok f0_1 /\
  Forall (fun w => is_row_estimation_warning w = false) (added 10).
Proof.
  intros op added. split; [vm_compute; reflexivity|].
  split; [|split; [|split; [|split; [|split; [|split; [|split]]]]]].
  - unfold added. destruct (check_problem_operators_warnings relop (op 1000) self)
      as (ws & F & E). rewrite E.
    assert (row_estimation_part (op 1000) = []) as -> by (rewrite row_estimation_part_cases; reflexivity).
    rewrite app_nil_r. exact F.
  - exists (S754_finite false 5635129033747333 (-49)). split; vm_compute; reflexivity.
  - unfold added. destruct (check_problem_operators_warnings relop (op 1001) self)
      as (ws & F & E). rewrite E. apply in_or_app. right.
    rewrite row_estimation_part_cases. simpl. by left.
  - reflexivity.
  - vm_compute. reflexivity.
  - vm_compute. reflexivity.
  - vm_compute. reflexivity.
  - unfold added. destruct (check_problem_operators_warnings relop (op 10) self)
      as (ws & F & E). rewrite E.
    assert (row_estimation_part (op 10) = []) as -> by (rewrite row_estimation_part_cases; reflexivity).
    rewrite app_nil_r. exact F.
Qed.

(** ** Strings *)

Section Strings.

Import PyStr.






Lemma split_nonempty sep s : split sep s <> [].
Proof.
  destruct s as [|c s]; simpl; [discriminate|].
  destruct (Ascii.eqb c sep); [discriminate|].
  destruct (split sep s); discriminate.
Qed.

(** With fewer than two parts, the one part is the string itself. *)
Lemma split_single sep s : (length (split sep s) < 2)%nat -> split sep s = [s].
Proof.
  induction s as [|c s IH]; simpl; [reflexivity|].
  destruct (Ascii.eqb c sep).
  - pose proof (split_nonempty sep s). destruct (split sep s); simpl; [done|lia].
  - destruct (split sep s) as [|p ps] eqn:E; simpl in *.
    + by destruct (split_nonempty sep s).
    + intros H. destruct ps; simpl in H; [|lia].
      simpl in IH. specialize (IH ltac:(lia)). by inversion IH.
Qed.




Lemma bare_table_name_code table :
  (if (2 <=? length (split "." table))%nat then List.last (split "." table) "" else table)
  = bare_table_name table.
Proof.
  unfold bare_table_name.
  destruct (2 <=? length (split "." table))%nat eqn:E; [reflexivity|].
  apply Nat.leb_gt in E. by rewrite (split_single _ _ E).
Qed.

End Strings.


(** C1: on the document of scenario B the analysis produces exactly one
    record, with the index name, key column list and INCLUDE clause the
    scenario names; the table after ON is [dbo].[Employees] with its outer
    brackets stripped, not [[dbo].[Employees]]. *)
Theorem scenario_B_analysis :
  analyze_plan scenario_B (__init__ f10)
  = (Ok tt,
     mkAnalyzer f10 []
       [mkMissingIndex (S754_finite false 6720215068966912 (-46))
          "dbo].[Employees" ["Department"] [] ["Salary"]
          ("CREATE NONCLUSTERED INDEX IX_Employees_Department" +:+ nl +:+
           "ON dbo].[Employees ([Department])" +:+ nl +:+
           "INCLUDE ([Salary]);")]
       [] f0) /\
  py_float "95.5" = Ok (S754_finite false 6720215068966912 (-46)) /\
  map create_statement (missing_indexes (snd (analyze_plan scenario_B (__init__ f10))))
  <> [scenario_B_expected_statement].
Proof.
  split; [vm_compute; reflexivity|]. split; [vm_compute; reflexivity|].
  vm_compute. discriminate.
Qed.

(** ** Object references of an operator *)

Lemma object_names_last (objs : list Element) (obj : Element) :
  object_names (objs ++ [obj])
  = (ET.get_default obj "Table" (ET.get_default obj "Index" ""),
     ET.get_default obj "Index" "").
Proof. unfold object_names. by rewrite fold_left_app. Qed.

Lemma extract_operator_info_names (self : ExecutionPlanAnalyzer) (relop : Element)
    (op : OperatorInfo) :
  _extract_operator_info self relop = Ok (Some op) ->
  (object_name op, index_name op) = object_names (ET.findall relop "Object").
Proof.
  unfold _extract_operator_info.
  destruct (float_attr relop "EstimatedTotalSubtreeCost"); [|discriminate]. simpl.
  destruct (float_attr relop "EstimateRows") as [rows|]; [|discriminate]. simpl.
  destruct (py_int rows); [|discriminate]. simpl.
  destruct (if flt f0 (total_cost self) then _ else _); [|discriminate]. simpl.
  destruct (object_names _) as [o i].
  destruct (match ET.get relop "ActualRows" with Some _ => _ | None => _ end);
    [|discriminate].
  simpl. intros H. by inversion H.
Qed.

(** C5: [object_name] and [index_name] come from one object reference below
    the operator, [object_name] preferring its Table attribute over its
    Index attribute, both empty without a reference.  The loop has no
    [break]: with several references below the operator it is the last one
    in document order that is kept, here the second scan's. *)
Theorem object_reference_of_join :
  (exists op,
     _extract_operator_info (__init__ f10) join_operator = Ok (Some op) /\
     object_name op = "[Customers]" /\ index_name op = "[IX_Customers]") /\
  map (fun obj => ET.get obj "Table") (ET.findall join_operator "Object")
  = [Some "[Orders]"; Some "[Customers]"] /\
  object_names [] = ("", "") /\
  (forall (objs : list Element) (obj : Element),
     object_names (objs ++ [obj])
     = (ET.get_default obj "Table" (ET.get_default obj "Index" ""),
        ET.get_default obj "Index" "")) /\
  (forall self relop op,
     _extract_operator_info self relop = Ok (Some op) ->
     (object_name op, index_name op) = object_names (ET.findall relop "Object")).
Proof.
  split; [|split; [|split; [|split]]].
  - eexists. split; [vm_compute; reflexivity|]. split; reflexivity.
  - vm_compute. reflexivity.
  - reflexivity.
  - apply object_names_last.
  - apply extract_operator_info_names.
Qed.

(** ** Missing-index records *)

Lemma column_groups_last (idx : Element) :
  column_groups idx
  = (columns_with_usage "EQUALITY" idx,
     columns_with_usage "INEQUALITY" idx,
     columns_with_usage "INCLUDE" idx).
Proof.
  unfold column_groups, columns_with_usage.
  induction (ET.findall idx "ColumnGroup") as [|g l IH] using rev_ind.
  - reflexivity.
  - rewrite fold_left_app, IH, rev_unit.
    cbn [fold_left List.filter]. unfold has_usage.
    generalize (ET.get_default g "Usage" "") as usage. intros usage.
    destruct (String.eqb_spec usage "EQUALITY") as [->|N1]; [reflexivity|].
    destruct (String.eqb_spec usage "INEQUALITY") as [->|N2]; [reflexivity|].
    destruct (String.eqb_spec usage "INCLUDE") as [->|N3]; reflexivity.
Qed.

Lemma missing_index_record_columns (imp : spec_float) (idx : Element) :
  let r := missing_index_record imp idx in
  equality_columns r = columns_with_usage "EQUALITY" idx /\
  inequality_columns r = columns_with_usage "INEQUALITY" idx /\
  included_columns r = columns_with_usage "INCLUDE" idx /\
  create_statement r
  = _generate_create_index (table_name r) (equality_columns r)
      (inequality_columns r) (included_columns r).
Proof.
  unfold missing_index_record. rewrite column_groups_last. simpl. done.
Qed.

Section PassesAppend.

Variable P_op : OperatorInfo -> Prop.
Variable P_mi : MissingIndex -> Prop.
Variable P_w : string -> Prop.

Lemma appends__extract_total_cost root :
  appends P_op P_mi P_w false (_extract_total_cost root).
Proof.
  unfold _extract_total_cost.
  induction (ET.findall root "StmtSimple") as [|stmt rest IH]; simpl.
  - apply appends_ret.
  - destruct (ET.get stmt "StatementSubTreeCost") as [cost|]; [|exact IH].
    destruct (PyStr.truthy cost); [|exact IH].
    apply appends_bind; [apply appends_eval|].
    intros c. apply appends_set_total_cost.
Qed.

Hypothesis every_op : forall op, P_op op.
Hypothesis every_w : forall w, P_w w.

Lemma appends__check_problem_operators relop info :
  appends P_op P_mi P_w true (_check_problem_operators relop info).
Proof.
  destruct info as [op|]; simpl; [|apply appends_ret].
  apply appends_bind; [|intros _; apply appends_bind; [|intros _]].
  - unfold check_physical_op.
    branches; first [ apply appends_ret | apply appends_append_warning, every_w ].
  - unfold check_implicit_conversion.
    destruct (op_warnings op); [apply appends_ret|].
    apply appends_for_each. intros w _.
    destruct (PyStr.contains _ _);
      first [ apply appends_ret | apply appends_append_warning, every_w ].
  - unfold check_row_estimation.
    destruct (actual_rows op); [|apply appends_ret].
    destruct (0 <? estimated_rows op); [|apply appends_ret].
    apply appends_bind; [apply appends_eval|]. intros ratio.
    destruct (_ || _)%bool;
      first [ apply appends_ret | apply appends_append_warning, every_w ].
Qed.

Lemma appends__analyze_operators root :
  appends P_op P_mi P_w true (_analyze_operators root).
Proof.
  unfold _analyze_operators. apply appends_for_each. intros relop _.
  apply appends_bind; [apply appends_eval|]. intros info.
  apply appends_bind; [apply appends_eval|]. intros threshold.
  apply appends_bind; [|intros _; apply appends__check_problem_operators].
  destruct info as [op|]; [|apply appends_ret].
  destruct (fle _ _); first [ apply appends_ret | apply appends_append_expensive, every_op ].
Qed.

Lemma appends__extract_warnings root :
  appends P_op P_mi P_w true (_extract_warnings root).
Proof.
  unfold _extract_warnings. apply appends_for_each. intros w _.
  apply appends_bind.
  - destruct (ET.find w "NoJoinPredicate");
      first [ apply appends_ret | apply appends_append_warning, every_w ].
  - intros _. apply appends_for_each. intros _ _. apply appends_append_warning, every_w.
Qed.

Hypothesis every_record : forall imp idx, P_mi (missing_index_record imp idx).

Lemma appends__extract_missing_indexes root :
  appends P_op P_mi P_w true (_extract_missing_indexes root).
Proof.
  unfold _extract_missing_indexes. apply appends_for_each. intros g _.
  apply appends_bind; [apply appends_eval|]. intros imp.
  apply appends_for_each. intros idx _. apply appends_append_missing, every_record.
Qed.

Lemma appends_analyze_plan root :
  appends P_op P_mi P_w false (analyze_plan root).
Proof.
  unfold analyze_plan.
  apply appends_bind; [apply appends__extract_total_cost|]. intros _.
  apply appends_weaken.
  apply appends_bind; [apply appends__analyze_operators|]. intros _.
  apply appends_bind; [apply appends__extract_missing_indexes|]. intros _.
  apply appends__extract_warnings.
Qed.

End PassesAppend.

Lemma new_missing_indexes_extended (c : M unit) self ops mis ws total :
  snd (c self) = extended self ops mis ws total -> new_missing_indexes c self = mis.
Proof. intros E. unfold new_missing_indexes. rewrite E. simpl. apply drop_app_length. Qed.



(** ** The cost model *)

Lemma extract_operator_info_total (self other : ExecutionPlanAnalyzer) (relop : Element) :
  total_cost other = total_cost self ->
  _extract_operator_info other relop = _extract_operator_info self relop.
Proof. intros H. unfold _extract_operator_info. by rewrite H. Qed.

Lemma flt_zero_positive (x : spec_float) : flt f0 x = true -> is_zero x = false.
Proof. by destruct x. Qed.

Lemma flt_zero_of_zero (x : spec_float) : is_zero x = true -> flt f0 x = false.
Proof. by destruct x. Qed.

Lemma extract_operator_info_cost (self : ExecutionPlanAnalyzer) (relop : Element)
    (op : OperatorInfo) :
  _extract_operator_info self relop = Ok (Some op) ->
  exists own_cost,
    float_attr relop "EstimatedTotalSubtreeCost" = Ok own_cost /\
    cost_percentage op =
      (if flt f0 (total_cost self)
       then fmul (fdiv own_cost (total_cost self)) f100 else f0).
Proof.
  unfold _extract_operator_info.
  destruct (float_attr relop "EstimatedTotalSubtreeCost") as [own_cost|]; [|discriminate].
  simpl. destruct (float_attr relop "EstimateRows") as [rows|]; [|discriminate].
  simpl. destruct (py_int rows) as [n|]; [|discriminate].
  simpl. intros H. exists own_cost. split; [reflexivity|].
  destruct (flt f0 (total_cost self)) eqn:Hpos.
  - unfold float_truediv in H. rewrite (flt_zero_positive _ Hpos) in H. simpl in H.
    destruct (object_names _) as [o i].
    destruct (match ET.get relop "ActualRows" with Some _ => _ | None => _ end);
      [|discriminate].
    simpl in H. by inversion H.
  - simpl in H. destruct (object_names _) as [o i].
    destruct (match ET.get relop "ActualRows" with Some _ => _ | None => _ end);
      [|discriminate].
    simpl in H. by inversion H.
Qed.

(** Looking for the total cost a second time changes nothing. *)
Lemma extract_total_cost_again (root : Element) (self : ExecutionPlanAnalyzer) :
  _extract_total_cost root (snd (_extract_total_cost root self))
  = _extract_total_cost root self.
Proof.
  unfold _extract_total_cost.
  induction (ET.findall root "StmtSimple") as [|stmt rest IH]; simpl; [reflexivity|].
  destruct (ET.get stmt "StatementSubTreeCost") as [cost|]; [|exact IH].
  destruct (PyStr.truthy cost); [|exact IH].
  unfold bind, eval. destruct (py_float cost); reflexivity.
Qed.

Lemma cleared_extended self ops mis ws total :
  cleared (extended self ops mis ws total)
  = mkAnalyzer (threshold_percentage self) [] [] [] total.
Proof. reflexivity. Qed.

Lemma extract_total_cost_cleared (root : Element) (self : ExecutionPlanAnalyzer) :
  snd (_extract_total_cost root (cleared self))
  = cleared (snd (_extract_total_cost root self)).
Proof.
  unfold _extract_total_cost.
  induction (ET.findall root "StmtSimple") as [|stmt rest IH]; simpl; [reflexivity|].
  destruct (ET.get stmt "StatementSubTreeCost") as [cost|]; [|exact IH].
  destruct (PyStr.truthy cost); [|exact IH].
  unfold bind, eval. destruct (py_float cost); reflexivity.
Qed.

(** The passes after the first leave the total cost alone. *)
Lemma cleared_analyze_plan (root : Element) (self : ExecutionPlanAnalyzer) :
  cleared (snd (analyze_plan root self)) = cleared (snd (_extract_total_cost root self)).
Proof.
  unfold analyze_plan at 1. unfold bind at 1.
  destruct (_extract_total_cost root self) as [[[]|e] s1]; [|reflexivity].
  simpl snd.
  assert (Hrest : appends any_op any_mi any_w true
                    (_analyze_operators root >> _extract_missing_indexes root >>
                     _extract_warnings root)).
  { apply appends_bind; [by apply appends__analyze_operators|]. intros _.
    apply appends_bind; [by apply appends__extract_missing_indexes|]. intros _.
    by apply appends__extract_warnings. }
  destruct (Hrest s1) as (ops & mis & ws & total & E & _ & _ & _ & K).
  rewrite E, cleared_extended, (K eq_refl). reflexivity.
Qed.

Lemma bind_again {A B} (m : M A) (k : A -> M B) (self : ExecutionPlanAnalyzer) :
  m (snd (m self)) = m self -> bind m k (snd (m self)) = bind m k self.
Proof. intros H. unfold bind. by rewrite H. Qed.

(** A second pass over the same document finds what the first one found. *)
Lemma analyze_plan_again (root : Element) (self : ExecutionPlanAnalyzer) :
  analyze_plan root (cleared (snd (analyze_plan root self)))
  = analyze_plan root (cleared self).
Proof.
  rewrite cleared_analyze_plan, <- extract_total_cost_cleared.
  unfold analyze_plan. apply bind_again, extract_total_cost_again.
Qed.

(** C2, as the code has it: the cost percentage of an operator is its own
    subtree cost divided by the total cost, that quotient then multiplied by
    100, when the total cost is above zero, and 0 otherwise, whatever the
    operator's own cost; it depends on the instance through the total cost
    only, and a second pass over the same document computes the same
    values. *)
Theorem cost_percentage_rule
    (self : ExecutionPlanAnalyzer) (relop : Element) (op : OperatorInfo) :
  _extract_operator_info self relop = Ok (Some op) ->
  exists own_cost,
    float_attr relop "EstimatedTotalSubtreeCost" = Ok own_cost /\
    cost_percentage op =
      (if flt f0 (total_cost self)
       then fmul (fdiv own_cost (total_cost self)) f100 else f0) /\
    (is_zero (total_cost self) = true -> cost_percentage op = f0) /\
    (forall other, total_cost other = total_cost self ->
                   _extract_operator_info other relop = Ok (Some op)) /\
    (forall root start,
       let first := snd (analyze_plan root start) in
       analyze_plan root (cleared first) = analyze_plan root (cleared start) /\
       _extract_operator_info (snd (_extract_total_cost root first)) relop
       = _extract_operator_info (snd (_extract_total_cost root start)) relop).
Proof.
  intros H. destruct (extract_operator_info_cost self relop op H) as (own_cost & Hc & Hp).
  exists own_cost. split; [exact Hc|]. split; [exact Hp|]. split; [|split].
  - intros Hz. rewrite Hp, (flt_zero_of_zero _ Hz). reflexivity.
  - intros other Ht. rewrite <- H. by apply extract_operator_info_total.
  - intros root start first. split; [apply analyze_plan_again|].
    apply extract_operator_info_total.
    pose proof (cleared_analyze_plan root start) as E1. fold first in E1.
    pose proof (extract_total_cost_cleared root first) as E2.
    rewrite E1, <- extract_total_cost_cleared in E2.
    pose proof (extract_total_cost_again root (cleared start)) as E3.
    rewrite E3 in E2.
    pose proof (extract_total_cost_cleared root start) as E4.
    rewrite E4 in E2.
    apply (f_equal total_cost) in E2. exact (eq_sym E2).
Qed.

(** Scenario A: total cost 10.0 and an operator of subtree cost 5.0. *)
Lemma cost_percentage_rule_witness :
  let self := snd (_extract_total_cost (costed_plan "10.0" "5.0") (__init__ f10)) in
  exists op,
    _extract_operator_info self (costed_operator "5.0") = Ok (Some op) /\
    cost_percentage op = fmul (fdiv (of_Z 5) (of_Z 10)) f100 /\
    format_f 1 (cost_percentage op) = "50.0".
Proof.
  intros self.
  destruct (_extract_operator_info self (costed_operator "5.0")) as [[op|]|e] eqn:E;
    [|vm_compute in E; discriminate E|vm_compute in E; discriminate E].
  exists op. split; [reflexivity|].
  destruct (cost_percentage_rule self (costed_operator "5.0") op E)
    as (own_cost & Hc & Hp & _).
  vm_compute in Hc. inversion Hc; subst own_cost.
  rewrite Hp. split; vm_compute; reflexivity.
Defined.

(** The claim as written fails on the last bit: with total cost 2.9 and own
    cost 0.29 the code computes [(0.29 / 2.9) * 100], which is 10.0, and
    lists the operator as expensive for the default threshold; the float
    [100 * 0.29 / 2.9] is 9.999999999999998, below the threshold. *)
Lemma cost_percentage_order_counterexample :
  let self := snd (_extract_total_cost (costed_plan "2.9" "0.29") (__init__ f10)) in
  exists op own_cost,
    py_float "2.9" = Ok (total_cost self) /\ flt f0 (total_cost self) = true /\
    float_attr (costed_operator "0.29") "EstimatedTotalSubtreeCost" = Ok own_cost /\
    _extract_operator_info self (costed_operator "0.29") = Ok (Some op) /\
    cost_percentage op = f10 /\
    fdiv (fmul f100 own_cost) (total_cost self) = S754_finite false 5629499534213119 (-49) /\
    cost_percentage op <> fdiv (fmul f100 own_cost) (total_cost self) /\
    fle f10 (cost_percentage op) = true /\
    fle f10 (fdiv (fmul f100 own_cost) (total_cost self)) = false /\
    expensive_operators (snd (analyze_plan (costed_plan "2.9" "0.29") (__init__ f10))) = [op].
Proof.
  intros self.
  destruct (_extract_operator_info self (costed_operator "0.29")) as [[op|]|e] eqn:E;
    [|vm_compute in E; discriminate E|vm_compute in E; discriminate E].
  exists op, (S754_finite false 5224175567749775 (-54)).
  assert (Hcp : cost_percentage op = f10).
  { vm_compute in E. inversion E. reflexivity. }
  split; [vm_compute; reflexivity|]. split; [vm_compute; reflexivity|].
  split; [vm_compute; reflexivity|]. split; [reflexivity|].
  split; [exact Hcp|]. split; [vm_compute; reflexivity|].
  split; [rewrite Hcp; vm_compute; discriminate|].
  split; [rewrite Hcp; vm_compute; reflexivity|].
  split; [vm_compute; reflexivity|].
  vm_compute in E. inversion E. vm_compute. reflexivity.
Qed.

(** ** Absent numeric attributes *)








Lemma never_raises__extract_warnings (root : Element) :
  never_raises (_extract_warnings root).
Proof.
  unfold _extract_warnings. apply never_raises_for_each. intros w _.
  apply never_raises_bind.
  - destruct (ET.find w "NoJoinPredicate");
      first [ apply never_raises_ret | apply never_raises_append_warning ].
  - intros _. apply never_raises_for_each. intros _ _. apply never_raises_append_warning.
Qed.




(** ** The command-line driver *)

(** C7, as the code has it: when the path does not exist or the document is
    not well-formed XML the process exits with code 1 after printing one
    diagnostic line, on standard output like everything else the program
    prints (nothing is written to the error stream), and no report is
    printed; when the document is parsed and the analysis completes, the
    report is printed and the exit code is 0.  A report is printed only
    with exit code 0. *)
Theorem main_exit_behaviour (w : World) (file : string) (threshold : spec_float) :
  let run := main w file threshold in
  stderr run = [] /\
  (path_exists w file = false ->
   exit_code run = 1 /\ stdout run = [not_found_line file]) /\
  (path_exists w file = true -> ET_parse w file = FileNotFoundError ->
   exit_code run = 1 /\ stdout run = [analyzing_line file; not_found_line file]) /\
  (forall msg, path_exists w file = true -> ET_parse w file = ParseError msg ->
   exit_code run = 1 /\ stdout run = [analyzing_line file; parse_error_line msg]) /\
  (forall root, path_exists w file = true -> ET_parse w file = Parsed root ->
   fst (analyze_plan root (__init__ threshold)) = Ok tt ->
   exit_code run = 0 /\
   stdout run = [analyzing_line file;
                 PrintReport (snd (analyze_plan root (__init__ threshold)))]) /\
  (existsb is_report (stdout run) = true -> exit_code run = 0).
Proof.
  intros run. unfold run, main, analyze_file.
  destruct (path_exists w file); simpl.
  - destruct (ET_parse w file) as [root|msg|] eqn:Hparse; simpl.
    + destruct (analyze_plan root (__init__ threshold)) as [[[]|e] self'] eqn:Hrun; simpl.
      * split; [reflexivity|]. split; [discriminate|]. split; [discriminate|].
        split; [discriminate|]. split; [|reflexivity].
        intros root' _ Hroot _. inversion Hroot; subst root'. by rewrite Hrun.
      * split; [reflexivity|]. split; [discriminate|]. split; [discriminate|].
        split; [discriminate|]. split; [|discriminate].
        intros root' _ Hroot Hok. inversion Hroot; subst root'.
        rewrite Hrun in Hok. discriminate.
    + split; [reflexivity|]. split; [discriminate|]. split; [discriminate|].
      split; [|split; discriminate].
      intros msg' _ Hmsg. by inversion Hmsg.
    + split; [reflexivity|]. split; [discriminate|]. split; [done|].
      split; [discriminate|]. split; discriminate.
  - split; [reflexivity|]. split; [done|]. split; [discriminate|].
    split; [discriminate|]. split; discriminate.
Qed.

Lemma main_exit_behaviour_witness :
  exit_code (main world_without_file "plan.sqlplan" f10) = 1 /\
  stdout (main world_without_file "plan.sqlplan" f10) = [not_found_line "plan.sqlplan"] /\
  exit_code (main world_with_malformed_file "plan.sqlplan" f10) = 1 /\
  stdout (main world_with_malformed_file "plan.sqlplan" f10)
  = [analyzing_line "plan.sqlplan"; parse_error_line "syntax error: line 1, column 0"].
Proof.
  destruct (main_exit_behaviour world_without_file "plan.sqlplan" f10)
    as (_ & Hmissing & _).
  destruct (main_exit_behaviour world_with_malformed_file "plan.sqlplan" f10)
    as (_ & _ & _ & Hmalformed & _).
  destruct (Hmissing eq_refl) as [E1 O1].
  destruct (Hmalformed "syntax error: line 1, column 0" eq_refl eq_refl) as [E2 O2].
  repeat split; assumption.
Defined.

(** The claim as written fails: for a path that does not exist, and for a
    malformed document, the diagnostic line is on standard output and the
    error stream stays empty. *)
Lemma diagnostic_stream_counterexample :
  exit_code (main world_without_file "plan.sqlplan" f10) = 1 /\
  stderr (main world_without_file "plan.sqlplan" f10) = [] /\
  stdout (main world_without_file "plan.sqlplan" f10)
  = [Print "Error: File 'plan.sqlplan' not found"] /\
  exit_code (main world_with_malformed_file "plan.sqlplan" f10) = 1 /\
  stderr (main world_with_malformed_file "plan.sqlplan" f10) = [] /\
  In (Print "Error parsing XML file: syntax error: line 1, column 0")
     (stdout (main world_with_malformed_file "plan.sqlplan" f10)).
Proof. repeat split; try reflexivity. right. left. reflexivity. Qed.

(** ** The scenarios of the specification, evaluated *)

(** Scenario A: total cost 10.0 and one operator of subtree cost 5.0; its
    share is 50.0 and it is listed as expensive for the default threshold. *)
Example scenario_A_expensive :
  map summary
      (expensive_operators (snd (analyze_plan (costed_plan "10.0" "5.0") (__init__ f10))))
  = [("Index Seek", "50.0")].
Proof. vm_compute. reflexivity. Qed.

(** Scenario C: one cartesian-product warning. *)
Example scenario_C_warning :
  analyze_plan scenario_C (__init__ f10)
  = (Ok tt, mkAnalyzer f10 [] [] [no_join_predicate_warning] (of_Z 1)).
Proof. vm_compute. reflexivity. Qed.

(** The classification rules do not depend on the threshold: a table scan
    with a share of 2.5% is not listed as expensive and is warned about. *)
Example cheap_scan_still_warned :
  let self := snd (analyze_plan cheap_scan_plan (__init__ f10)) in
  expensive_operators self = [] /\
  warnings self
  = ["🔴 TABLE SCAN on [Orders] (1,234,567 rows, 2.5% cost) - Consider adding an index"].
Proof. split; vm_compute; reflexivity. Qed.

(** * Further properties of the analyzer *)

(** ** The exceptions of the analysis *)

Section RaisesOnly.

Variable P : PyExc -> Prop.

Lemma raises_only_ret {A} (a : A) : raises_only P (ret a).
Proof. intros self e H. discriminate. Qed.

Lemma raises_only_bind {A B} (m : M A) (k : A -> M B) :
  raises_only P m -> (forall a, raises_only P (k a)) -> raises_only P (bind m k).
Proof.
  intros Hm Hk self e. unfold bind.
  destruct (m self) as [[a|e'] s1] eqn:E.
  - apply Hk.
  - simpl. intros H. inversion H; subst e'. apply (Hm self). by rewrite E.
Qed.

Lemma raises_only_for_each {A} (xs : list A) (body : A -> M unit) :
  (forall x, raises_only P (body x)) -> raises_only P (for_each xs body).
Proof.
  intros H. induction xs as [|x xs IH]; simpl.
  - apply raises_only_ret.
  - apply raises_only_bind; auto.
Qed.

Lemma raises_only_eval {A} (f : ExecutionPlanAnalyzer -> Result A) :
  (forall self e, f self = Raise e -> P e) -> raises_only P (eval f).
Proof. intros H self e. apply H. Qed.

Lemma raises_only_never {A} (c : M A) : never_raises c -> raises_only P c.
Proof. intros H self e E. destruct (H self) as [a Ha]. congruence. Qed.

End RaisesOnly.

Lemma py_float_error (s : string) (e : PyExc) : py_float s = Raise e -> e = ValueError.
Proof.
  unfold py_float. destruct (drop_underscores _ _) as [s'|]; [|congruence].
  destruct (parse_number s'); congruence.
Qed.

Lemma py_int_error (x : spec_float) (e : PyExc) : py_int x = Raise e -> conversion_error e.
Proof. destruct x; simpl; intros H; inversion H; [by right|by left]. Qed.

Lemma float_attr_error (el : Element) (key : string) (e : PyExc) :
  float_attr el key = Raise e -> e = ValueError.
Proof.
  unfold float_attr. destruct (ET.get el key); [apply py_float_error|discriminate].
Qed.

Lemma int_truediv_error (a b : Z) (e : PyExc) :
  0 < b -> int_truediv a b = Raise e -> e = OverflowError.
Proof.
  intros Hb. unfold int_truediv.
  destruct (b =? 0) eqn:E; [apply Z.eqb_eq in E; lia|].
  destruct (a =? 0); [discriminate|].
  destruct (fdiv _ _); congruence.
Qed.

Lemma extract_operator_info_error (self : ExecutionPlanAnalyzer) (relop : Element)
    (e : PyExc) :
  _extract_operator_info self relop = Raise e -> conversion_error e.
Proof.
  unfold _extract_operator_info.
  destruct (float_attr relop "EstimatedTotalSubtreeCost") as [c|e1] eqn:E1; simpl;
    [|intros H; inversion H; subst; left; by apply float_attr_error in E1].
  destruct (float_attr relop "EstimateRows") as [rows|e2] eqn:E2; simpl;
    [|intros H; inversion H; subst; left; by apply float_attr_error in E2].
  destruct (py_int rows) as [n|e3] eqn:E3; simpl;
    [|intros H; inversion H; subst; by apply py_int_error in E3].
  destruct (flt f0 (total_cost self)) eqn:Hpos.
  - unfold float_truediv. rewrite (flt_zero_positive _ Hpos). simpl.
    destruct (object_names _) as [o i].
    destruct (ET.get relop "ActualRows") as [v|]; [|discriminate].
    destruct (PyStr.truthy v); [|discriminate].
    destruct (py_float v) as [a|e4] eqn:E4; simpl;
      [|intros H; inversion H; subst; left; by apply py_float_error in E4].
    destruct (py_int a) as [k|e5] eqn:E5; simpl;
      [discriminate|intros H; inversion H; subst; by apply py_int_error in E5].
  - simpl. destruct (object_names _) as [o i].
    destruct (ET.get relop "ActualRows") as [v|]; [|discriminate].
    destruct (PyStr.truthy v); [|discriminate].
    destruct (py_float v) as [a|e4] eqn:E4; simpl;
      [|intros H; inversion H; subst; left; by apply py_float_error in E4].
    destruct (py_int a) as [k|e5] eqn:E5; simpl;
      [discriminate|intros H; inversion H; subst; by apply py_int_error in E5].
Qed.

Lemma raises_only_check_row_estimation op :
  raises_only conversion_error (check_row_estimation op).
Proof.
  unfold check_row_estimation.
  destruct (actual_rows op) as [actual|]; [|apply raises_only_ret].
  destruct (0 <? estimated_rows op) eqn:Hpos; [|apply raises_only_ret].
  apply Z.ltb_lt in Hpos.
  apply raises_only_bind.
  - apply raises_only_eval. intros _ e H. right. exact (int_truediv_error actual _ e Hpos H).
  - intros ratio. destruct (_ || _)%bool;
      [apply raises_only_never, never_raises_append_warning|apply raises_only_ret].
Qed.

Lemma raises_only__analyze_operators root :
  raises_only conversion_error (_analyze_operators root).
Proof.
  unfold _analyze_operators. apply raises_only_for_each. intros relop.
  apply raises_only_bind.
  { apply raises_only_eval. intros self e. apply extract_operator_info_error. }
  intros info. apply raises_only_bind; [apply raises_only_eval; discriminate|].
  intros threshold. apply raises_only_bind.
  { destruct info as [op|]; [|apply raises_only_ret].
    destruct (fle _ _);
      [apply raises_only_never, never_raises_append_expensive|apply raises_only_ret]. }
  intros _. destruct info as [op|]; simpl; [|apply raises_only_ret].
  apply raises_only_bind;
    [apply raises_only_never, never_raises_check_physical_op|intros _].
  apply raises_only_bind;
    [apply raises_only_never, never_raises_check_implicit_conversion|intros _].
  apply raises_only_check_row_estimation.
Qed.

Lemma raises_only__extract_total_cost root :
  raises_only (fun e => e = ValueError) (_extract_total_cost root).
Proof.
  unfold _extract_total_cost.
  induction (ET.findall root "StmtSimple") as [|stmt rest IH]; simpl.
  - apply raises_only_ret.
  - destruct (ET.get stmt "StatementSubTreeCost") as [cost|]; [|exact IH].
    destruct (PyStr.truthy cost); [|exact IH].
    apply raises_only_bind.
    + apply raises_only_eval. intros _ e. apply py_float_error.
    + intros c. by apply raises_only_never; intros self; exists tt.
Qed.

Lemma raises_only__extract_missing_indexes root :
  raises_only (fun e => e = ValueError) (_extract_missing_indexes root).
Proof.
  unfold _extract_missing_indexes. apply raises_only_for_each. intros g.
  apply raises_only_bind.
  - apply raises_only_eval. intros _ e. apply float_attr_error.
  - intros imp. apply raises_only_never, never_raises_for_each.
    intros idx _. apply never_raises_append_missing.
Qed.

Lemma raises_only_weaken {A} (P Q : PyExc -> Prop) (c : M A) :
  (forall e, P e -> Q e) -> raises_only P c -> raises_only Q c.
Proof. intros HPQ H self e E. apply HPQ, (H self e E). Qed.

(** X1: the analysis raises nothing but the [ValueError] and
    [OverflowError] of the numeric conversions; both divisions are guarded,
    so it never raises [ZeroDivisionError]. *)
Theorem analyze_plan_exceptions (root : Element) (self : ExecutionPlanAnalyzer) (e : PyExc) :
  fst (analyze_plan root self) = Raise e ->
  (e = ValueError \/ e = OverflowError) /\ e <> ZeroDivisionError.
Proof.
  intros H.
  assert (Hc : conversion_error e).
  { revert self e H. change (raises_only conversion_error (analyze_plan root)).
    unfold analyze_plan.
    apply raises_only_bind; [|intros _].
    { eapply raises_only_weaken; [|apply raises_only__extract_total_cost].
      intros e ->. by left. }
    apply raises_only_bind; [apply raises_only__analyze_operators|intros _].
    apply raises_only_bind; [|intros _].
    { eapply raises_only_weaken; [|apply raises_only__extract_missing_indexes].
      intros e ->. by left. }
    apply raises_only_never, never_raises__extract_warnings. }
  split; [exact Hc|]. destruct Hc as [->| ->]; discriminate.
Qed.

Lemma analyze_plan_exceptions_witness :
  fst (analyze_plan (costed_plan "10.0" "N/A") (__init__ f10)) = Raise ValueError /\
  fst (analyze_plan infinite_rows_plan (__init__ f10)) = Raise OverflowError /\
  ValueError <> ZeroDivisionError.
Proof.
  assert (H1 : fst (analyze_plan (costed_plan "10.0" "N/A") (__init__ f10)) = Raise ValueError)
    by (vm_compute; reflexivity).
  assert (H2 : fst (analyze_plan infinite_rows_plan (__init__ f10)) = Raise OverflowError)
    by (vm_compute; reflexivity).
  split; [exact H1|]. split; [exact H2|].
  exact (proj2 (analyze_plan_exceptions _ _ _ H1)).
Defined.

(** ** The threshold only selects the expensive operators *)

Section ThresholdBlind.

Lemma same_findings_refl s : same_findings s s.
Proof. by repeat split. Qed.

Lemma threshold_blind_ret {A} (a : A) : threshold_blind (ret a).
Proof. intros s t H. by split. Qed.

Lemma threshold_blind_bind {A B} (m : M A) (k : A -> M B) :
  threshold_blind m -> (forall a, threshold_blind (k a)) -> threshold_blind (bind m k).
Proof.
  intros Hm Hk s t H. unfold bind.
  destruct (Hm s t H) as [Hr Hs].
  destruct (m s) as [[a|e] s1], (m t) as [[b|e'] t1]; simpl in *; try discriminate.
  - inversion Hr; subst b. by apply Hk.
  - inversion Hr; subst e'. split; [reflexivity|exact Hs].
Qed.

Lemma threshold_blind_for_each {A} (xs : list A) (body : A -> M unit) :
  (forall x, threshold_blind (body x)) -> threshold_blind (for_each xs body).
Proof.
  intros H. induction xs as [|x xs IH]; simpl.
  - apply threshold_blind_ret.
  - apply threshold_blind_bind; auto.
Qed.

Lemma threshold_blind_eval {A} (f : ExecutionPlanAnalyzer -> Result A) :
  (forall s t, same_findings s t -> f s = f t) -> threshold_blind (eval f).
Proof. intros H s t Hst. unfold eval; simpl. split; [by apply H|exact Hst]. Qed.

Lemma threshold_blind_append_warning w : threshold_blind (append_warning w).
Proof.
  intros s t (Hm & Hw & Ht). unfold append_warning, same_findings; simpl.
  by rewrite Hw.
Qed.

Lemma threshold_blind_append_expensive op : threshold_blind (append_expensive op).
Proof. intros s t (Hm & Hw & Ht). by unfold append_expensive, same_findings. Qed.

Lemma threshold_blind_append_missing mi : threshold_blind (append_missing mi).
Proof.
  intros s t (Hm & Hw & Ht). unfold append_missing, same_findings; simpl.
  by rewrite Hm.
Qed.

Lemma threshold_blind_set_total_cost c : threshold_blind (set_total_cost c).
Proof. intros s t (Hm & Hw & Ht). by unfold set_total_cost, same_findings. Qed.

End ThresholdBlind.

Lemma threshold_blind__check_problem_operators relop info :
  threshold_blind (_check_problem_operators relop info).
Proof.
  destruct info as [op|]; simpl; [|apply threshold_blind_ret].
  apply threshold_blind_bind; [|intros _; apply threshold_blind_bind; [|intros _]].
  - unfold check_physical_op.
    branches; first [ apply threshold_blind_ret | apply threshold_blind_append_warning ].
  - unfold check_implicit_conversion.
    destruct (op_warnings op); [apply threshold_blind_ret|].
    apply threshold_blind_for_each. intros w.
    destruct (PyStr.contains _ _);
      first [ apply threshold_blind_ret | apply threshold_blind_append_warning ].
  - unfold check_row_estimation.
    destruct (actual_rows op); [|apply threshold_blind_ret].
    destruct (0 <? estimated_rows op); [|apply threshold_blind_ret].
    apply threshold_blind_bind; [by apply threshold_blind_eval|]. intros ratio.
    destruct (_ || _)%bool;
      first [ apply threshold_blind_ret | apply threshold_blind_append_warning ].
Qed.

Lemma threshold_blind_read_threshold (k : spec_float -> M unit) :
  (forall th1 th2 s t, same_findings s t ->
     fst (k th1 s) = fst (k th2 t) /\ same_findings (snd (k th1 s)) (snd (k th2 t))) ->
  threshold_blind (bind (eval (fun self => Ok (threshold_percentage self))) k).
Proof. intros H s t Hst. unfold bind, eval. by apply H. Qed.

Lemma listing_keeps_findings (info : option OperatorInfo) (th : spec_float)
    (u : ExecutionPlanAnalyzer) :
  exists u',
    (match info with
     | Some op => if fle th (cost_percentage op) then append_expensive op else ret tt
     | None => ret tt
     end) u = (Ok tt, u') /\ same_findings u u'.
Proof.
  destruct info as [op|]; [|exists u; split; [done|apply same_findings_refl]].
  destruct (fle th (cost_percentage op));
    [|exists u; split; [done|apply same_findings_refl]].
  eexists. split; [reflexivity|]. by unfold same_findings.
Qed.

Lemma threshold_blind__analyze_operators root : threshold_blind (_analyze_operators root).
Proof.
  unfold _analyze_operators. apply threshold_blind_for_each. intros relop.
  apply threshold_blind_bind.
  { apply threshold_blind_eval. intros s t (_ & _ & Ht).
    by apply extract_operator_info_total. }
  intros info. apply threshold_blind_read_threshold. intros th1 th2 s t H.
  unfold bind.
  destruct (listing_keeps_findings info th1 s) as (s' & -> & Hs).
  destruct (listing_keeps_findings info th2 t) as (t' & -> & Ht).
  apply threshold_blind__check_problem_operators.
  destruct H as (H1 & H2 & H3), Hs as (Hs1 & Hs2 & Hs3), Ht as (Ht1 & Ht2 & Ht3).
  unfold same_findings. by rewrite <- Hs1, <- Hs2, <- Hs3, <- Ht1, <- Ht2, <- Ht3.
Qed.

Lemma threshold_blind_analyze_plan root : threshold_blind (analyze_plan root).
Proof.
  unfold analyze_plan. apply threshold_blind_bind; [|intros _].
  { unfold _extract_total_cost.
    induction (ET.findall root "StmtSimple") as [|stmt rest IH]; simpl.
    - apply threshold_blind_ret.
    - destruct (ET.get stmt "StatementSubTreeCost") as [cost|]; [|exact IH].
      destruct (PyStr.truthy cost); [|exact IH].
      apply threshold_blind_bind; [by apply threshold_blind_eval|].
      intros c. apply threshold_blind_set_total_cost. }
  apply threshold_blind_bind; [apply threshold_blind__analyze_operators|intros _].
  apply threshold_blind_bind; [|intros _].
  { unfold _extract_missing_indexes. apply threshold_blind_for_each. intros g.
    apply threshold_blind_bind; [by apply threshold_blind_eval|]. intros imp.
    apply threshold_blind_for_each. intros idx. apply threshold_blind_append_missing. }
  unfold _extract_warnings. apply threshold_blind_for_each. intros w.
  apply threshold_blind_bind.
  - destruct (ET.find w "NoJoinPredicate");
      first [ apply threshold_blind_ret | apply threshold_blind_append_warning ].
  - intros _. apply threshold_blind_for_each. intros _.
    apply threshold_blind_append_warning.
Qed.

(** X2: the threshold decides which operators are listed as expensive and
    nothing else: with any other threshold, and whatever the list of
    expensive operators holds, the analysis ends the same way (returns, or
    raises the same exception) with the same warnings, the same
    missing-index records and the same total cost. *)
Theorem threshold_only_selects_expensive
    (root : Element) (self : ExecutionPlanAnalyzer)
    (threshold : spec_float) (listed : list OperatorInfo) :
  let other :=
    mkAnalyzer threshold listed (missing_indexes self) (warnings self) (total_cost self) in
  fst (analyze_plan root other) = fst (analyze_plan root self) /\
  warnings (snd (analyze_plan root other)) = warnings (snd (analyze_plan root self)) /\
  missing_indexes (snd (analyze_plan root other))
  = missing_indexes (snd (analyze_plan root self)) /\
  total_cost (snd (analyze_plan root other)) = total_cost (snd (analyze_plan root self)).
Proof.
  intros other.
  destruct (threshold_blind_analyze_plan root other self) as (Hr & Hm & Hw & Ht).
  { by unfold same_findings. }
  by repeat split.
Qed.

(** ** Which lists a pass touches *)

Lemma Forall_False_nil {A} (l : list A) : Forall (fun _ => False) l -> l = [].
Proof. destruct l; [done|]. intros H. by inversion H. Qed.

Lemma appends_only_warnings {A} (c : M A) :
  appends no_op no_mi any_w true c ->
  forall self, exists ws, snd (c self) = extended self [] [] ws (total_cost self).
Proof.
  intros H self. destruct (H self) as (ops & mis & ws & total & E & Fo & Fm & _ & K).
  apply Forall_False_nil in Fo, Fm. subst. rewrite (K eq_refl) in E. by exists ws.
Qed.

Lemma appends_only_missing {A} (c : M A) :
  appends no_op any_mi no_w true c ->
  forall self, exists mis, snd (c self) = extended self [] mis [] (total_cost self).
Proof.
  intros H self. destruct (H self) as (ops & mis & ws & total & E & Fo & _ & Fw & K).
  apply Forall_False_nil in Fo, Fw. subst. rewrite (K eq_refl) in E. by exists mis.
Qed.

Lemma appends_no_missing {A} (c : M A) :
  appends any_op no_mi any_w true c ->
  forall self, exists ops ws, snd (c self) = extended self ops [] ws (total_cost self).
Proof.
  intros H self. destruct (H self) as (ops & mis & ws & total & E & _ & Fm & _ & K).
  apply Forall_False_nil in Fm. subst. rewrite (K eq_refl) in E. by exists ops, ws.
Qed.

Lemma appends_only_total {A} (c : M A) :
  appends no_op no_mi no_w false c ->
  forall self, exists total, snd (c self) = extended self [] [] [] total.
Proof.
  intros H self. destruct (H self) as (ops & mis & ws & total & E & Fo & Fm & Fw & _).
  apply Forall_False_nil in Fo, Fm, Fw. subst. by exists total.
Qed.

Lemma check_problem_operators_frame relop info self :
  exists ws,
    snd (_check_problem_operators relop info self) = extended self [] [] ws (total_cost self).
Proof.
  apply appends_only_warnings, appends__check_problem_operators. by intros w.
Qed.

(** ** The list of expensive operators *)

Lemma extract_operator_info_some (self : ExecutionPlanAnalyzer) (relop : Element) :
  _extract_operator_info self relop <> Ok None.
Proof.
  unfold _extract_operator_info.
  destruct (float_attr relop "EstimatedTotalSubtreeCost"); [|discriminate]. simpl.
  destruct (float_attr relop "EstimateRows") as [rows|]; [|discriminate]. simpl.
  destruct (py_int rows); [|discriminate]. simpl.
  destruct (if flt f0 (total_cost self) then _ else _); [|discriminate]. simpl.
  destruct (object_names _) as [o i].
  destruct (match ET.get relop "ActualRows" with Some _ => _ | None => _ end);
    discriminate.
Qed.

Lemma extended_threshold self ops mis ws total :
  threshold_percentage (extended self ops mis ws total) = threshold_percentage self.
Proof. reflexivity. Qed.

Lemma analyze_operators_unfold root :
  _analyze_operators root = for_each (ET.findall root "RelOp") analyze_operator.
Proof. reflexivity. Qed.

Lemma append_expensive_extended op self :
  append_expensive op self = (Ok tt, extended self [op] [] [] (total_cost self)).
Proof. unfold append_expensive, extended. simpl. by rewrite !app_nil_r. Qed.

Lemma append_warning_extended w self :
  append_warning w self = (Ok tt, extended self [] [] [w] (total_cost self)).
Proof. unfold append_warning, extended. simpl. by rewrite !app_nil_r. Qed.

Lemma append_missing_extended mi self :
  append_missing mi self = (Ok tt, extended self [] [mi] [] (total_cost self)).
Proof. unfold append_missing, extended. simpl. by rewrite !app_nil_r. Qed.

Lemma analyze_operator_step (relop : Element) (self : ExecutionPlanAnalyzer) :
  match _extract_operator_info self relop with
  | Ok (Some op) =>
      exists ws,
        snd (analyze_operator relop self)
        = extended self (List.filter (is_expensive (threshold_percentage self)) [op])
                   [] ws (total_cost self)
  | Ok None => False
  | Raise e => analyze_operator relop self = (Raise e, self)
  end.
Proof.
  pose proof (extract_operator_info_some self relop) as Hsome.
  unfold analyze_operator, bind, eval.
  destruct (_extract_operator_info self relop) as [[op|]|e]; [|done|done].
  cbn [List.filter]. unfold is_expensive.
  destruct (fle (threshold_percentage self) (cost_percentage op)).
  - rewrite append_expensive_extended.
    destruct (check_problem_operators_frame relop (Some op)
                (extended self [op] [] [] (total_cost self))) as (ws & E).
    destruct (_check_problem_operators relop (Some op)
                (extended self [op] [] [] (total_cost self))) as [r s1].
    simpl in E. subst s1. exists ws. rewrite extended_extended.
    destruct r; reflexivity.
  - unfold ret. cbv beta iota.
    destruct (check_problem_operators_frame relop (Some op) self) as (ws & E).
    destruct (_check_problem_operators relop (Some op) self) as [r s1].
    simpl in E. subst s1. exists ws. destruct r; reflexivity.
Qed.

Lemma analyze_operators_loop (relops : list Element) (self : ExecutionPlanAnalyzer) :
  fst (for_each relops analyze_operator self) = Ok tt ->
  exists infos ws,
    Forall2 (fun relop op => _extract_operator_info self relop = Ok (Some op)) relops infos /\
    snd (for_each relops analyze_operator self)
    = extended self (List.filter (is_expensive (threshold_percentage self)) infos) [] ws
               (total_cost self).
Proof.
  revert self. induction relops as [|relop relops IH]; intros self.
  - intros _. exists [], []. split; [constructor|]. simpl. by rewrite extended_nil.
  - cbn [for_each]. unfold bind.
    pose proof (analyze_operator_step relop self) as Hstep.
    destruct (_extract_operator_info self relop) as [[op|]|e] eqn:Einfo; [|done|].
    + destruct Hstep as (ws1 & E1).
      destruct (analyze_operator relop self) as [[[]|e] s1]; [|discriminate].
      simpl in E1. subst s1. intros Hok.
      destruct (IH _ Hok) as (infos & ws & F & E).
      exists (op :: infos), (ws1 ++ ws). split.
      * constructor; [exact Einfo|].
        eapply Forall2_impl; [exact F|]. intros r o Hr.
        rewrite <- Hr. symmetry. by apply extract_operator_info_total.
      * rewrite E, extended_extended, extended_threshold.
        cbn [List.filter]. by destruct (is_expensive _ op).
    + rewrite Hstep. discriminate.
Qed.

Lemma new_expensive_operators_extended (c : M unit) self ops mis ws total :
  snd (c self) = extended self ops mis ws total -> new_expensive_operators c self = ops.
Proof.
  intros E. unfold new_expensive_operators. rewrite E. simpl. apply drop_app_length.
Qed.

Lemma fle_not_nan (x y : spec_float) : fle x y = true -> y <> S754_nan.
Proof. intros H ->. by destruct x. Qed.

(** X3: when the operator pass completes, the operators it lists as
    expensive are exactly the records of those operators of the document
    whose cost percentage is at or above the threshold, in document order;
    in particular none of them has a NaN cost percentage. *)
Theorem expensive_operators_are_those_above_threshold
    (root : Element) (self : ExecutionPlanAnalyzer) :
  fst (_analyze_operators root self) = Ok tt ->
  exists infos,
    Forall2 (fun relop op => _extract_operator_info self relop = Ok (Some op))
            (ET.findall root "RelOp") infos /\
    new_expensive_operators (_analyze_operators root) self
    = List.filter (is_expensive (threshold_percentage self)) infos /\
    Forall (fun op => fle (threshold_percentage self) (cost_percentage op) = true /\
                      cost_percentage op <> S754_nan)
           (new_expensive_operators (_analyze_operators root) self).
Proof.
  intros Hok. rewrite analyze_operators_unfold in *.
  destruct (analyze_operators_loop _ self Hok) as (infos & ws & F & E).
  exists infos. split; [exact F|].
  rewrite (new_expensive_operators_extended _ _ _ _ _ _ E). split; [reflexivity|].
  apply Forall_forall. intros op Hin. apply list_elem_of_In, filter_In in Hin as [_ Hexp].
  split; [exact Hexp|]. by apply (fle_not_nan _ _ Hexp).
Qed.

Lemma expensive_operators_are_those_above_threshold_witness :
  let self := with_total_cost f10 (__init__ f10) in
  map summary (new_expensive_operators (_analyze_operators three_operators) self)
  = [("Hash Match", "50.0"); ("Index Seek", "20.0")] /\
  Forall (fun op => fle (threshold_percentage self) (cost_percentage op) = true /\
                    cost_percentage op <> S754_nan)
         (new_expensive_operators (_analyze_operators three_operators) self).
Proof.
  intros self. split; [vm_compute; reflexivity|].
  assert (Hok : fst (_analyze_operators three_operators self) = Ok tt)
    by (vm_compute; reflexivity).
  destruct (expensive_operators_are_those_above_threshold three_operators self Hok)
    as (infos & _ & _ & F).
  exact F.
Defined.

(** ** The total cost *)




(** ** The implicit-conversion rule *)





(** The text in front of the column name cannot complete the marker. *)
Lemma marker_only_in_name (col : string) :
  PyStr.contains "CONVERT_IMPLICIT" (PyStr.upper ("No statistics on column: " +:+ col))
  = names_conversion col.
Proof. reflexivity. Qed.






(** ** Brackets around names *)

Section Strip.

Import PyStr.

Variable chars : string.

Lemma rstrip_head c s :
  rstrip chars (String c s) = EmptyString \/
  exists r, rstrip chars (String c s) = String c r.
Proof.
  simpl. destruct (rstrip chars s) as [|d r].
  - destruct (char_in c chars); [by left|right; by exists EmptyString].
  - right. by eexists.
Qed.

Lemma rstrip_last s :
  match last_char (rstrip chars s) with
  | Some l => char_in l chars = false
  | None => True
  end.
Proof.
  induction s as [|c s IH]; simpl; [done|].
  destruct (rstrip chars s) as [|d r] eqn:E.
  - destruct (char_in c chars) eqn:Ec; simpl; done.
  - exact IH.
Qed.

Lemma last_char_cons c d s : last_char (String c (String d s)) = last_char (String d s).
Proof. reflexivity. Qed.

Lemma rstrip_fixed s :
  match last_char s with
  | Some l => char_in l chars = false
  | None => True
  end -> rstrip chars s = s.
Proof.
  induction s as [|c s IH]; [done|].
  destruct s as [|d s].
  - simpl. by intros ->.
  - rewrite last_char_cons. intros H. specialize (IH H).
    change (rstrip chars (String c (String d s)))
      with (match rstrip chars (String d s) with
            | EmptyString => if char_in c chars then EmptyString else String c EmptyString
            | r => String c r
            end).
    by rewrite IH.
Qed.

Lemma rstrip_app_stripped x s :
  char_in x chars = true -> rstrip chars (s +:+ String x EmptyString) = rstrip chars s.
Proof.
  intros Hx. induction s as [|c s IH]; simpl; [by rewrite Hx|by rewrite IH].
Qed.

Lemma lstrip_head s :
  match lstrip chars s with
  | EmptyString => True
  | String c _ => char_in c chars = false
  end.
Proof.
  induction s as [|c s IH]; simpl; [done|].
  destruct (char_in c chars) eqn:E; [exact IH|exact E].
Qed.

Lemma outer_free_strip s : outer_free chars (strip chars s) = true.
Proof.
  unfold strip. pose proof (lstrip_head s) as Hh.
  pose proof (rstrip_last (lstrip chars s)) as Hl.
  destruct (lstrip chars s) as [|c t]; [reflexivity|].
  destruct (rstrip_head c t) as [E|[r E]]; rewrite E in *; [reflexivity|].
  unfold outer_free. rewrite Hh. simpl negb.
  destruct (last_char (String c r)); [by rewrite Hl|reflexivity].
Qed.

Lemma strip_fixed s : outer_free chars s = true -> strip chars s = s.
Proof.
  destruct s as [|c s]; [reflexivity|].
  unfold outer_free, strip. intros H. apply andb_true_iff in H as [Hc Hl].
  apply negb_true_iff in Hc. simpl lstrip. rewrite Hc.
  apply rstrip_fixed.
  destruct (last_char (String c s)); [by apply negb_true_iff in Hl|done].
Qed.

Lemma strip_wrapped (x y : ascii) s :
  char_in x chars = true -> char_in y chars = true ->
  outer_free chars s = true ->
  strip chars (String x (s +:+ String y EmptyString)) = s.
Proof.
  intros Hx Hy Hs. unfold strip. simpl lstrip. rewrite Hx.
  destruct s as [|c s].
  - simpl. by rewrite Hy.
  - pose proof Hs as Hs'. unfold outer_free in Hs'.
    apply andb_true_iff in Hs' as [Hc _]. apply negb_true_iff in Hc.
    change (lstrip chars (String c s +:+ String y EmptyString))
      with (if char_in c chars then lstrip chars (s +:+ String y EmptyString)
            else String c (s +:+ String y EmptyString)).
    rewrite Hc.
    change (String c (s +:+ String y EmptyString))
      with (String c s +:+ String y EmptyString).
    rewrite (rstrip_app_stripped _ _ Hy).
    pose proof (strip_fixed _ Hs) as Hfix. unfold strip in Hfix.
    simpl lstrip in Hfix. by rewrite Hc in Hfix.
Qed.

End Strip.

(** X6: stripping and bracketing undo each other on column names.  For a
    column the document names [c] or [[c]], where [c] neither starts nor ends
    with a bracket, the key or INCLUDE list of the statement has [[c]]; the
    name may contain brackets inside, as a multi-part name does. *)
Theorem column_name_round_trip (col : Element) (c : string) :
  outer_free "[]" c = true ->
  ET.get col "Name" = Some c \/ ET.get col "Name" = Some (bracketed c) ->
  PyStr.strip "[]" (ET.get_default col "Name" "") = c /\
  bracketed (PyStr.strip "[]" (ET.get_default col "Name" "")) = bracketed c.
Proof.
  intros Hc Hname.
  assert (H : PyStr.strip "[]" (ET.get_default col "Name" "") = c).
  { unfold ET.get_default. unfold ET.get in Hname. destruct Hname as [-> | ->].
    - by apply strip_fixed.
    - unfold bracketed. by apply strip_wrapped. }
  by rewrite H.
Qed.

Lemma column_name_round_trip_witness :
  bracketed (PyStr.strip "[]"
    (ET.get_default (elem "Column" [("Name", "[dbo].[Department]")] []) "Name" ""))
  = "[dbo].[Department]".
Proof.
  exact (proj2 (column_name_round_trip
                  (elem "Column" [("Name", "[dbo].[Department]")] [])
                  "dbo].[Department" eq_refl (or_intror eq_refl))).
Defined.

(** ** The names in a missing-index record *)

Lemma group_columns_outer_free (g : Element) :
  Forall (fun c => outer_free "[]" c = true) (group_columns g).
Proof.
  unfold group_columns. apply Forall_forall. intros c Hin.
  apply list_elem_of_In, in_map_iff in Hin as (col & <- & _). apply outer_free_strip.
Qed.

Lemma columns_with_usage_outer_free (usage : string) (idx : Element) :
  Forall (fun c => outer_free "[]" c = true) (columns_with_usage usage idx).
Proof.
  unfold columns_with_usage.
  destruct (List.filter _ _); [constructor|apply group_columns_outer_free].
Qed.

(** X7: in every record the analysis adds, the table name and every column
    name has had the brackets at its two ends removed: none of them starts
    or ends with a bracket.  (Brackets inside a name stay.) *)
Theorem record_names_have_no_outer_brackets (root : Element) (self : ExecutionPlanAnalyzer) :
  Forall
    (fun r =>
       outer_free "[]" (table_name r) = true /\
       Forall (fun c => outer_free "[]" c = true)
              (equality_columns r ++ inequality_columns r ++ included_columns r))
    (new_missing_indexes (analyze_plan root) self).
Proof.
  set (P_mi := fun r : MissingIndex =>
         outer_free "[]" (table_name r) = true /\
         Forall (fun c => outer_free "[]" c = true)
                (equality_columns r ++ inequality_columns r ++ included_columns r)).
  assert (Hrec : forall imp idx, P_mi (missing_index_record imp idx)).
  { intros imp idx. unfold P_mi.
    destruct (missing_index_record_columns imp idx) as (He & Hi & Hc & _).
    rewrite He, Hi, Hc. split.
    - unfold missing_index_record. destruct (column_groups idx) as [[e i] c]. simpl.
      apply outer_free_strip.
    - rewrite !Forall_app. repeat split; apply columns_with_usage_outer_free. }
  destruct (appends_analyze_plan any_op P_mi any_w (fun _ => I) (fun _ => I) Hrec root self)
    as (ops & mis & ws & total & E & _ & Fm & _).
  by rewrite (new_missing_indexes_extended _ _ _ _ _ _ E).
Qed.

(** ** The index name *)

(** X8: the synthesized index name is a function of the text after the
    last dot of the table identifier and of the first three equality
    columns only: two suggestions that agree on these, whatever their
    schema, further equality columns, inequality or included columns, get
    the same index name. *)
Theorem index_name_collision
    (table1 table2 : string) (equality1 equality2 : list string) :
  bare_table_name table1 = bare_table_name table2 ->
  firstn 3 equality1 = firstn 3 equality2 ->
  synthesized_index_name table1 equality1 = synthesized_index_name table2 equality2.
Proof.
  intros Ht He. unfold synthesized_index_name.
  rewrite !bare_table_name_code. by rewrite Ht, He.
Qed.

Lemma index_name_collision_witness :
  synthesized_index_name "Sales.dbo.Orders" ["Region"; "Year"; "Month"; "Day"]
  = synthesized_index_name "Archive.dbo.Orders" ["Region"; "Year"; "Month"; "Hour"].
Proof. exact (index_name_collision _ _ _ _ eq_refl eq_refl). Defined.

(** ** The plan-level collector *)

Lemma extract_warnings_inner_loop (xs : list Element) (self : ExecutionPlanAnalyzer) :
  for_each xs (fun _ => append_warning unmatched_indexes_warning) self
  = (Ok tt,
     extended self [] [] (map (fun _ => unmatched_indexes_warning) xs) (total_cost self)).
Proof.
  revert self. induction xs as [|x xs IH]; intros self.
  - simpl. by rewrite extended_nil.
  - cbn [for_each map]. unfold bind.
    rewrite append_warning_extended, IH, extended_extended. reflexivity.
Qed.

Lemma extract_warnings_run (root : Element) (self : ExecutionPlanAnalyzer) :
  _extract_warnings root self
  = (Ok tt, extended self [] [] (plan_level_warnings root) (total_cost self)).
Proof.
  unfold _extract_warnings, plan_level_warnings.
  revert self. induction (ET.findall root "Warnings") as [|w ws IH]; intros self.
  - simpl. by rewrite extended_nil.
  - cbn [for_each flat_map]. unfold bind at 1. unfold bind at 1. unfold block_warnings.
    destruct (ET.find w "NoJoinPredicate").
    + rewrite append_warning_extended, extract_warnings_inner_loop, IH.
      rewrite !extended_extended. reflexivity.
    + unfold ret. cbv beta iota.
      rewrite extract_warnings_inner_loop, IH, extended_extended. reflexivity.
Qed.

Lemma count_occ_repeat_other (x y : string) (xs : list Element) :
  x <> y -> count_occ string_dec (map (fun _ => y) xs) x = 0%nat.
Proof.
  intros H. induction xs as [|e xs IH]; simpl; [reflexivity|].
  destruct (string_dec y x); [congruence|exact IH].
Qed.

Lemma count_occ_repeat_same (x : string) (xs : list Element) :
  count_occ string_dec (map (fun _ => x) xs) x = length xs.
Proof.
  induction xs as [|e xs IH]; simpl; [reflexivity|].
  destruct (string_dec x x); [by rewrite IH|done].
Qed.

(** X9: the plan-level collector never raises and changes nothing but the
    list of warnings, to which it adds, for each warnings block of the
    document in document order, one cartesian-product warning if the block
    holds at least one no-join-predicate marker (one, however many markers
    there are) and then one unmatched-indexes warning per unmatched-indexes
    marker. *)
Theorem plan_level_collector (root : Element) (self : ExecutionPlanAnalyzer) :
  _extract_warnings root self
  = (Ok tt, extended self [] [] (plan_level_warnings root) (total_cost self)) /\
  (forall block,
     count_occ string_dec (block_warnings block) no_join_predicate_warning
     = (if ET.findall block "NoJoinPredicate" is [] then 0 else 1)%nat /\
     count_occ string_dec (block_warnings block) unmatched_indexes_warning
     = length (ET.findall block "UnmatchedIndexes")).
Proof.
  split; [apply extract_warnings_run|].
  intros block. unfold block_warnings, ET.find.
  assert (Hne : no_join_predicate_warning <> unmatched_indexes_warning) by discriminate.
  destruct (ET.findall block "NoJoinPredicate") as [|e l]; cbn [app]; split.
  - by apply count_occ_repeat_other.
  - apply count_occ_repeat_same.
  - rewrite count_occ_cons_eq by reflexivity. by rewrite count_occ_repeat_other.
  - rewrite count_occ_cons_neq by exact Hne. apply count_occ_repeat_same.
Qed.

(** ** Which lists a pass touches, and in which order the warnings come *)

Lemma extract_total_cost_frame (root : Element) (self : ExecutionPlanAnalyzer) :
  exists total, snd (_extract_total_cost root self) = extended self [] [] [] total.
Proof. apply appends_only_total, appends__extract_total_cost. Qed.

Lemma analyze_operators_frame (root : Element) (self : ExecutionPlanAnalyzer) :
  exists ops ws,
    snd (_analyze_operators root self) = extended self ops [] ws (total_cost self).
Proof. apply appends_no_missing, appends__analyze_operators; by intros. Qed.

Lemma extract_missing_indexes_frame (root : Element) (self : ExecutionPlanAnalyzer) :
  exists mis,
    snd (_extract_missing_indexes root self) = extended self [] mis [] (total_cost self).
Proof. apply appends_only_missing, appends__extract_missing_indexes. by intros. Qed.

(** X10: each pass touches its own findings only.  Looking for the total
    cost changes no list; the operator pass leaves the missing-index
    records and the total cost alone; the missing-index pass leaves the
    expensive operators, the warnings and the total cost alone; and all of
    this holds whether the pass returns or raises. *)
Theorem passes_touch_their_own_lists (root : Element) (self : ExecutionPlanAnalyzer) :
  (exists total, snd (_extract_total_cost root self) = extended self [] [] [] total) /\
  (exists ops ws,
     snd (_analyze_operators root self) = extended self ops [] ws (total_cost self)) /\
  (exists mis,
     snd (_extract_missing_indexes root self) = extended self [] mis [] (total_cost self)).
Proof.
  split; [|split].
  - apply extract_total_cost_frame.
  - apply analyze_operators_frame.
  - apply extract_missing_indexes_frame.
Qed.

Lemma bind_unit_ok {B} (m : M unit) (k : unit -> M B) self (b : B) :
  fst (bind m k self) = Ok b ->
  fst (m self) = Ok tt /\ bind m k self = k tt (snd (m self)).
Proof.
  unfold bind. destruct (m self) as [[[]|e] s1]; simpl; [by split|discriminate].
Qed.

Lemma new_warnings_from_cleared (c : M unit) (self : ExecutionPlanAnalyzer) :
  list_blind c -> new_warnings c self = warnings (snd (c (cleared self))).
Proof.
  intros H. destruct (list_blind_from_cleared c self H) as (_ & _ & Hw & _).
  unfold new_warnings. rewrite Hw. apply drop_app_length.
Qed.

(** X11: when the analysis completes, the warnings it has added are those
    of the operator pass, operator by operator in document order, followed
    by those of the plan-level collector; the missing-index pass adds
    none. *)
Theorem warnings_in_pass_order (root : Element) (self : ExecutionPlanAnalyzer) :
  fst (analyze_plan root self) = Ok tt ->
  new_warnings (analyze_plan root) self
  = new_warnings (_analyze_operators root) (snd (_extract_total_cost root self))
    ++ plan_level_warnings root.
Proof.
  intros Hok.
  destruct (extract_total_cost_frame root self) as (t1 & E1).
  set (s1 := snd (_extract_total_cost root self)) in *.
  destruct (analyze_operators_frame root s1) as (ops & ws & E2).
  set (s2 := snd (_analyze_operators root s1)) in *.
  destruct (extract_missing_indexes_frame root s2) as (mis & E3).
  set (s3 := snd (_extract_missing_indexes root s2)) in *.
  assert (Hrun : snd (analyze_plan root self) = snd (_extract_warnings root s3)).
  { unfold analyze_plan in *.
    destruct (bind_unit_ok _ _ _ _ Hok) as [_ H1]. rewrite H1 in Hok |- *. fold s1 in Hok |- *.
    destruct (bind_unit_ok _ _ _ _ Hok) as [_ H2]. rewrite H2 in Hok |- *. fold s2 in Hok |- *.
    destruct (bind_unit_ok _ _ _ _ Hok) as [_ H3]. rewrite H3. reflexivity. }
  rewrite (new_warnings_extended _ _ _ _ _ _ E2).
  unfold new_warnings. rewrite Hrun, extract_warnings_run. cbn [snd].
  rewrite E3, E2, E1. simpl. rewrite !app_nil_r, <- !app_assoc. apply drop_app_length.
Qed.

Lemma warnings_in_pass_order_witness :
  new_warnings (analyze_plan warned_plan) (__init__ f10)
  = ["🔴 TABLE SCAN on [T] (10 rows, 25.0% cost) - Consider adding an index";
     no_join_predicate_warning; unmatched_indexes_warning; unmatched_indexes_warning].
Proof.
  rewrite (warnings_in_pass_order warned_plan (__init__ f10));
    [|vm_compute; reflexivity].
  vm_compute. reflexivity.
Defined.

(** ** Comparing floats *)


Lemma same_float_refl (x : spec_float) : PyRepr.same_float x x = true.
Proof.
  destruct x as [s|s| |s m e]; simpl; try reflexivity; try (by destruct s).
  by rewrite Bool.eqb_reflx, Pos.eqb_refl, Z.eqb_refl.
Qed.










(** ** The stable sort from high to low *)

Section SortedDesc.

Context {A : Type}.
Variable key : A -> spec_float.

Lemma insert_desc_perm (x : A) (l : list A) : Permutation (insert_desc key x l) (x :: l).
Proof.
  induction l as [|y l IH]; simpl; [reflexivity|].
  destruct (flt (key x) (key y)); [|reflexivity].
  rewrite IH. apply perm_swap.
Qed.

Lemma sorted_desc_perm (l : list A) : Permutation (sorted_desc key l) l.
Proof.
  induction l as [|x l IH]; simpl; [reflexivity|].
  rewrite insert_desc_perm. by constructor.
Qed.



End SortedDesc.

Section Stable.

Context {A : Type}.
Variable key : A -> spec_float.
Variable k : spec_float.



End Stable.

(** ** The report *)



Lemma print_report_sections (self : ExecutionPlanAnalyzer) :
  exists top bottom,
    print_report self
    = top ++ expensive_section self ++ warnings_section self ++
      missing_section self ++ bottom.
Proof.
  exists ([nl +:+ rule "="; "EXECUTION PLAN ANALYSIS REPORT"; rule "="] ++ summary_lines self),
         (best_practices ++ [nl +:+ rule "=" +:+ nl]).
  unfold print_report. apply app_assoc.
Qed.









Lemma enumerate_In {A} (start : Z) (xs : list A) (x : A) :
  In x xs ->
  exists i, start <= i < start + Z.of_nat (length xs) /\ In (i, x) (enumerate start xs).
Proof.
  revert start. induction xs as [|y xs IH]; intros start; [done|].
  intros [->|Hin].
  - exists start. split; [simpl length; lia|by left].
  - destruct (IH (start + 1) Hin) as (i & Hi & Hx).
    exists i. split; [simpl length; lia|by right].
Qed.

Lemma in_expensive_section (self : ExecutionPlanAnalyzer) (op : OperatorInfo) (line : string) :
  In op (expensive_operators self) -> In line (operator_lines op) ->
  In line (expensive_section self).
Proof.
  intros Hop Hline. unfold expensive_section.
  destruct (expensive_operators self) as [|o os] eqn:E; [done|].
  apply in_or_app. right. apply in_flat_map. exists op. split; [|exact Hline].
  apply (Permutation_in _ (Permutation_sym (sorted_desc_perm cost_percentage (o :: os)))).
  exact Hop.
Qed.

Lemma in_warnings_section (self : ExecutionPlanAnalyzer) (i : Z) (w : string) :
  In (i, w) (enumerate 1 (warnings self)) ->
  In (nl +:+ int_str i +:+ ". " +:+ w) (warnings_section self).
Proof.
  intros Hin. unfold warnings_section.
  destruct (warnings self) as [|w0 ws]; [done|].
  apply in_or_app. right. apply in_map_iff. by exists (i, w).
Qed.

Lemma in_missing_section (self : ExecutionPlanAnalyzer) (i : Z) (idx : MissingIndex)
    (line : string) :
  In (i, idx) (enumerate 1 (report_suggestion_order self)) ->
  In line (missing_index_lines i idx) ->
  In line (missing_section self).
Proof.
  intros Hin Hline. unfold missing_section. unfold report_suggestion_order in Hin.
  destruct (missing_indexes self) as [|m ms]; [done|].
  apply in_or_app. right. apply in_flat_map. by exists (i, idx).
Qed.

(** X14: the report leaves out nothing the instance holds: every expensive
    operator has its block, every warning its numbered entry, and every
    missing-index suggestion its numbered block with the statement
    synthesized for it; the numbers run from 1 to the number of entries. *)
Theorem report_shows_every_finding (self : ExecutionPlanAnalyzer) :
  (forall op, In op (expensive_operators self) ->
     In (nl +:+ "   Operator: " +:+ name op) (print_report self)) /\
  (forall w, In w (warnings self) ->
     exists i, 1 <= i <= Z.of_nat (length (warnings self)) /\
       In (nl +:+ int_str i +:+ ". " +:+ w) (print_report self)) /\
  (forall idx, In idx (missing_indexes self) ->
     exists i, 1 <= i <= Z.of_nat (length (missing_indexes self)) /\
       In (nl +:+ int_str i +:+ ". Table: " +:+ table_name idx) (print_report self) /\
       In (nl +:+ "   Suggested Index:" +:+ nl +:+ "   " +:+ create_statement idx)
          (print_report self)).
Proof.
  destruct (print_report_sections self) as (top & bottom & E).
  split; [|split].
  - intros op Hop. rewrite E. apply in_or_app. right. apply in_or_app. left.
    apply (in_expensive_section self op); [exact Hop|by left].
  - intros w Hw. destruct (enumerate_In 1 _ _ Hw) as (i & Hi & Hin).
    exists i. split; [lia|]. rewrite E.
    apply in_or_app. right. apply in_or_app. right. apply in_or_app. left.
    by apply in_warnings_section.
  - intros idx Hidx.
    assert (Hsorted : In idx (report_suggestion_order self)).
    { apply (Permutation_in _ (Permutation_sym (sorted_desc_perm impact _))). exact Hidx. }
    destruct (enumerate_In 1 _ _ Hsorted) as (i & Hi & Hin).
    exists i. split.
    { unfold report_suggestion_order in Hi.
      rewrite (Permutation_length (sorted_desc_perm impact (missing_indexes self))) in Hi.
      lia. }
    split; rewrite E; (apply in_or_app; right; apply in_or_app; right;
                       apply in_or_app; right; apply in_or_app; left;
                       apply (in_missing_section self i idx); [exact Hin|]).
    + by left.
    + unfold missing_index_lines. apply in_or_app. right.
      apply in_or_app. right. apply in_or_app. right. apply in_or_app. right. by left.
Qed.

Lemma report_shows_every_finding_witness :
  let self := snd (analyze_plan warned_plan (__init__ f10)) in
  exists i, 1 <= i <= Z.of_nat (length (warnings self)) /\
    In (nl +:+ int_str i +:+ ". " +:+ no_join_predicate_warning) (print_report self).
Proof.
  intros self.
  apply (proj1 (proj2 (report_shows_every_finding self))).
  vm_compute. right. left. reflexivity.
Defined.

(** ** The driver, continued *)


